(** * Offboard velocity control examples (MAVSDK): a shallow embedding

    The repository holds two example programs, each a single translation
    unit with the functions [usage], [get_system], [offb_ctrl_body] and
    [main]:

    - the omnidirectional variant (lines 1-277 of the source file), and
    - the orthogonal variant (lines 278-485).

    Both drive a vehicle through the MAVSDK library: connect, discover an
    autopilot, wait for health, arm, take off, confirm the vehicle is in the
    air, run a scripted list of body-frame velocity setpoints, land.

    The programs are embedded as computations in a small monad [Prog] that
    threads the state of the outside world, reads the answers of the
    library from an environment [Env], and records every call the program
    makes to the outside in a trace of [Event]s.  The clock is logical: a
    count of milliseconds that [sleep_for] and [wait_for] advance.

    The library itself (the classes [Mavsdk], [Action], [Offboard] and
    [Telemetry]) is not among the sources; the programs use it as a set of
    remote calls with a success or failure outcome and two notification
    streams one can subscribe to, and this is how it is modelled. *)

From Stdlib Require Import List String Bool Arith NArith ZArith QArith Lia.
Import ListNotations.

(** ** Data declared by the library *)

Module ConnectionResult.
(** Modelled from the spec: the enumeration [ConnectionResult] is declared
    in a header of the library that is not among the sources; a call has "a
    success/failure outcome" (section 6).  The programs only compare a
    result against [Success], so the other enumerators are kept as
    [Other n]. *)
Inductive t : Type := Success | Other (code : nat).

Definition eqb (a b : t) : bool :=
  match a, b with
  | Success, Success => true
  | Other n, Other m => Nat.eqb n m
  | _, _ => false
  end.
End ConnectionResult.

Module Action.
(** Modelled from the spec: [Action::Result], as [ConnectionResult] above. *)
Inductive Result : Type := Success | Other (code : nat).

Definition eqb (a b : Result) : bool :=
  match a, b with
  | Success, Success => true
  | Other n, Other m => Nat.eqb n m
  | _, _ => false
  end.
End Action.

Module Offboard.
(** Modelled from the spec: [Offboard::Result], as [ConnectionResult] above. *)
Inductive Result : Type := Success | Other (code : nat).

Definition eqb (a b : Result) : bool :=
  match a, b with
  | Success, Success => true
  | Other n, Other m => Nat.eqb n m
  | _, _ => false
  end.

(** Modelled from the spec: [Offboard::VelocityBodyYawspeed] is declared in
    the header of the plugin; it is the VelocityCommand of section 3, three
    linear velocities and a yaw rate, with the field names the programs
    assign to.  The fields are [float]s; every literal of the programs
    (0.5, 0.25, 22.5) is a dyadic rational, hence exactly representable,
    and the fields are modelled as rationals. *)
Record VelocityBodyYawspeed : Type := mkVelocity {
  forward_m_s : Q;
  right_m_s : Q;
  down_m_s : Q;
  yawspeed_deg_s : Q
}.

(** Value initialisation [VelocityBodyYawspeed x{}]: all fields zero. *)
Definition zero : VelocityBodyYawspeed := mkVelocity 0 0 0 0.

Definition set_forward_m_s (x : Q) (v : VelocityBodyYawspeed) :=
  mkVelocity x (right_m_s v) (down_m_s v) (yawspeed_deg_s v).
Definition set_right_m_s (x : Q) (v : VelocityBodyYawspeed) :=
  mkVelocity (forward_m_s v) x (down_m_s v) (yawspeed_deg_s v).
Definition set_down_m_s (x : Q) (v : VelocityBodyYawspeed) :=
  mkVelocity (forward_m_s v) (right_m_s v) x (yawspeed_deg_s v).
Definition set_yawspeed_deg_s (x : Q) (v : VelocityBodyYawspeed) :=
  mkVelocity (forward_m_s v) (right_m_s v) (down_m_s v) x.
End Offboard.

Module Telemetry.
(** Modelled from the spec: [Telemetry::LandedState], the "discrete state
    values" of the landed-state stream (section 4.1); the programs single
    out [InAir]. *)
Inductive LandedState : Type :=
| Unknown | OnGround | InAir | TakingOff | Landing.

Definition eqb (a b : LandedState) : bool :=
  match a, b with
  | Unknown, Unknown | OnGround, OnGround | InAir, InAir
  | TakingOff, TakingOff | Landing, Landing => true
  | _, _ => false
  end.
End Telemetry.

(** Modelled from the spec: a discovered peer ([System]), with the
    capability the programs ask for ("has autopilot", section 4.1) and an
    identifier that tells two peers apart. *)
Record System : Type := mkSystem {
  sysid : nat;
  has_autopilot : bool
}.

(** What a subscription slot of the library holds: the lambda of the
    program, or [nullptr]. *)
Inductive Handler : Type := Nullptr | Lambda.

(** [std::future_status]. *)
Inductive future_status : Type := ready | timeout | deferred.

(** ** Calls to the outside, as recorded in the trace *)

Inductive Event : Type :=
| Cout (text : string)
| Cerr (text : string)
| CerrConnectionResult (r : ConnectionResult.t)
| CerrActionResult (r : Action.Result)
| CerrOffboardResult (r : Offboard.Result)
| SleepFor (ms : N)
| AddAnyConnection (url : string)
| SubscribeOnNewSystem (h : Handler)
| PromSetValue (s : System)
| FutWaitFor (ms : N)
| FutGet
| HealthAllOk
| Arm
| SetTakeoffAltitude (metres : Q)
| SetCurrentSpeed (m_s : Q)
| Takeoff
| SubscribeLandedState (h : Handler)
| InAirPromiseSetValue
| InAirFutureWaitFor (ms : N)
| SetVelocityBody (v : Offboard.VelocityBodyYawspeed)
| OffboardStart
| OffboardStop
| Land
| InAirPoll
| FutureError.

(** ** The environment and the world *)

(** The command line and the answers of the library during one run of the
    process.  A notification schedule lists the notifications of a stream
    with the gap, in milliseconds, that separates each one from the one
    before; the first gap counts from the instant the program subscribes.
    [health_all_ok_at n] and [in_air_at n] are the answers to the n-th
    poll. *)
Record Env : Type := mkEnv {
  argv : list string;
  connection_result : ConnectionResult.t;
  new_systems : list (N * System);
  health_all_ok_at : nat -> bool;
  arm_result : Action.Result;
  takeoff_result : Action.Result;
  landed_states : list (N * Telemetry.LandedState);
  offboard_start_result : Offboard.Result;
  offboard_stop_result : Offboard.Result;
  land_result : Action.Result;
  in_air_at : nat -> bool
}.

(** The mutable state outside the control thread: the clock, the objects of
    the library, and the two promises the lambdas capture by reference. *)
Record World : Type := mkWorld {
  clock : N;
  systems : list System;
  on_new_system : Handler;
  new_system_pending : list (N * System);
  prom : option System;
  health_polls : nat;
  landed_state_handler : Handler;
  landed_state_pending : list (N * Telemetry.LandedState);
  in_air_promise : bool;
  in_air_polls : nat
}.

Definition init_world (e : Env) : World :=
  mkWorld 0 [] Nullptr (new_systems e) None 0
          Nullptr (landed_states e) false 0.

(** ** The monad *)

(** [Running]: the computation is still inside an unbounded loop when the
    fuel given to that loop is spent. *)
Inductive Outcome (A : Type) : Type :=
| Done (a : A)
| Running.
Arguments Done {A} a.
Arguments Running {A}.

Definition Prog (A : Type) : Type :=
  Env -> World -> Outcome A * World * list Event.

Definition ret {A} (a : A) : Prog A := fun _ w => (Done a, w, []).

Definition bind {A B} (m : Prog A) (k : A -> Prog B) : Prog B :=
  fun e w =>
    match m e w with
    | (Done a, w1, t1) =>
        match k a e w1 with
        | (o, w2, t2) => (o, w2, t1 ++ t2)
        end
    | (Running, w1, t1) => (Running, w1, t1)
    end.

Notation "x <- m ;; k" := (bind m (fun x => k))
  (at level 61, m at next level, right associativity).
Notation "m ;; k" := (bind m (fun _ => k))
  (at level 61, right associativity).

Definition emit (ev : Event) : Prog unit := fun _ w => (Done tt, w, [ev]).
Definition ask {A} (f : Env -> A) : Prog A := fun e w => (Done (f e), w, []).
Definition gets {A} (f : World -> A) : Prog A := fun _ w => (Done (f w), w, []).
Definition modify (f : World -> World) : Prog unit :=
  fun _ w => (Done tt, f w, []).
Definition diverge {A} : Prog A := fun _ w => (Running, w, []).

Definition outcome_of {A} (r : Outcome A * World * list Event) : Outcome A :=
  fst (fst r).
Definition world_of {A} (r : Outcome A * World * list Event) : World :=
  snd (fst r).
Definition trace_of {A} (r : Outcome A * World * list Event) : list Event :=
  snd r.

(** ** Primitives *)

Definition seconds (n : N) : N := (n * 1000)%N.

Definition tick (d : N) (w : World) : World :=
  mkWorld (clock w + d) (systems w) (on_new_system w) (new_system_pending w)
          (prom w) (health_polls w) (landed_state_handler w)
          (landed_state_pending w) (in_air_promise w) (in_air_polls w).

Definition cout (s : string) : Prog unit := emit (Cout s).
Definition cerr (s : string) : Prog unit := emit (Cerr s).

(** [std::cerr << result]: the text is produced by the [operator<<] of the
    library; the event keeps the value. *)
Definition cerr_connection_result (r : ConnectionResult.t) : Prog unit :=
  emit (CerrConnectionResult r).
Definition cerr_action_result (r : Action.Result) : Prog unit :=
  emit (CerrActionResult r).
Definition cerr_offboard_result (r : Offboard.Result) : Prog unit :=
  emit (CerrOffboardResult r).

(** [std::this_thread::sleep_for]: blocks the control thread for [d]. *)
Definition sleep_for (d : N) : Prog unit :=
  emit (SleepFor d) ;; modify (tick d).

(** Modelled from the spec: the calls of the [Offboard] plugin are remote
    calls whose body is not among the sources (section 6: "start-control()
    / stop-control() -> Result; send(VelocityCommand)").  The programs do
    not look at the result of [set_velocity_body]. *)
Definition set_velocity_body (v : Offboard.VelocityBodyYawspeed) : Prog unit :=
  emit (SetVelocityBody v).
Definition offboard_start : Prog Offboard.Result :=
  emit OffboardStart ;; ask offboard_start_result.
Definition offboard_stop : Prog Offboard.Result :=
  emit OffboardStop ;; ask offboard_stop_result.

(** ** [offb_ctrl_body]

    "Does Offboard control using body coordinates.  Returns true if
    everything went well in Offboard control."  Escape sequences of the
    C++ string literals are kept as written. *)

Module Omnidirectional.
Import Offboard.

(** Lines 68-182. *)
Definition offb_ctrl_body : Prog bool :=
  cout "Starting Offboard velocity control in body coordinates\n" ;;
  (* Send it once before starting offboard, otherwise it will be rejected *)
  let hover := zero in
  set_velocity_body hover ;;
  (* Start Offboard mode *)
  offboard_result <- offboard_start ;;
  if negb (Offboard.eqb offboard_result Success) then
    cerr "Offboard start failed: " ;;
    cerr_offboard_result offboard_result ;;
    cerr "\n" ;;
    ret false
  else
  cout "Offboard started\n" ;;
  (* Hover *)
  let hover := zero in
  cout "Hover\n" ;;
  set_velocity_body hover ;;
  sleep_for (seconds 2) ;;
  (* Fly forward, right, up *)
  cout "Fly forward, right, up\n" ;;
  let fly_forward_right_up :=
    set_down_m_s (-0.25) (set_right_m_s 0.5 (set_forward_m_s 0.5 zero)) in
  set_velocity_body fly_forward_right_up ;;
  sleep_for (seconds 4) ;;
  (* Fly forward, left, down *)
  cout "Fly forward, left, down\n" ;;
  let fly_forward_left_down :=
    set_down_m_s 0.25 (set_right_m_s (-0.5) (set_forward_m_s 0.5 zero)) in
  set_velocity_body fly_forward_left_down ;;
  sleep_for (seconds 4) ;;
  (* Fly backward, left, up *)
  cout "Fly backward, left, up\n" ;;
  let fly_backward_left_up :=
    set_down_m_s (-0.25) (set_right_m_s (-0.5) (set_forward_m_s (-0.5) zero)) in
  set_velocity_body fly_backward_left_up ;;
  sleep_for (seconds 4) ;;
  (* Fly backward, right, down *)
  cout "Fly backward, right, down\n" ;;
  let fly_backward_right_down :=
    set_down_m_s 0.25 (set_right_m_s 0.5 (set_forward_m_s (-0.5) zero)) in
  set_velocity_body fly_backward_right_down ;;
  sleep_for (seconds 4) ;;
  (* Fly quarter circle up *)
  cout "Fly quarter circle up\n" ;;
  let fly_quarter_cirle_up :=
    set_yawspeed_deg_s 22.5 (set_down_m_s (-0.25) (set_right_m_s 0.5 zero)) in
  set_velocity_body fly_quarter_cirle_up ;;
  sleep_for (seconds 4) ;;
  (* Fly quarter circle down *)
  cout "Fly quarter circle down\n" ;;
  let fly_quarter_cirle_down :=
    set_yawspeed_deg_s 22.5 (set_down_m_s 0.25 (set_right_m_s 0.5 zero)) in
  set_velocity_body fly_quarter_cirle_down ;;
  sleep_for (seconds 4) ;;
  (* Fly quarter circle up *)
  cout "Fly quarter circle up\n" ;;
  let fly_quarter_cirle_up :=
    set_yawspeed_deg_s 22.5 (set_down_m_s (-0.25) (set_right_m_s 0.5 zero)) in
  set_velocity_body fly_quarter_cirle_up ;;
  sleep_for (seconds 4) ;;
  (* Fly quarter circle down *)
  cout "Fly quarter circle down\n" ;;
  let fly_quarter_cirle_down :=
    set_yawspeed_deg_s 22.5 (set_down_m_s 0.25 (set_right_m_s 0.5 zero)) in
  set_velocity_body fly_quarter_cirle_down ;;
  sleep_for (seconds 4) ;;
  (* Hover *)
  let hover := zero in
  cout "Hover\n" ;;
  set_velocity_body hover ;;
  sleep_for (seconds 2) ;;
  (* Stop Offboard mode *)
  offboard_result <- offboard_stop ;;
  if negb (Offboard.eqb offboard_result Success) then
    cerr "Offboard stop failed: " ;;
    cerr_offboard_result offboard_result ;;
    cerr "\n" ;;
    ret false
  else
  cout "Offboard stopped\n" ;;
  ret true.

(** [main] sets this altitude before taking off (line 229). *)
Definition takeoff_altitude : Q := 1.5.
End Omnidirectional.

Module Orthogonal.
Import Offboard.

(** Lines 344-390. *)
Definition offb_ctrl_body : Prog bool :=
  cout "Starting Offboard velocity control in body coordinates\n" ;;
  (* Send it once before starting offboard, otherwise it will be rejected *)
  let hover := zero in
  set_velocity_body hover ;;
  (* Start Offboard mode *)
  offboard_result <- offboard_start ;;
  if negb (Offboard.eqb offboard_result Success) then
    cerr "Offboard start failed: " ;;
    cerr_offboard_result offboard_result ;;
    cerr "\n" ;;
    ret false
  else
  cout "Offboard started\n" ;;
  (* Hover *)
  let hover := zero in
  cout "Hover\n" ;;
  set_velocity_body hover ;;
  sleep_for (seconds 2) ;;
  (* Fly forward *)
  cout "Fly forward\n" ;;
  let fly_forward := set_forward_m_s 0.5 zero in
  set_velocity_body fly_forward ;;
  sleep_for (seconds 4) ;;
  (* Hover *)
  let hover := zero in
  cout "Hover\n" ;;
  set_velocity_body hover ;;
  sleep_for (seconds 2) ;;
  (* Stop Offboard mode *)
  offboard_result <- offboard_stop ;;
  if negb (Offboard.eqb offboard_result Success) then
    cerr "Offboard stop failed: " ;;
    cerr_offboard_result offboard_result ;;
    cerr "\n" ;;
    ret false
  else
  cout "Offboard stopped\n" ;;
  ret true.

(** [main] sets this altitude before taking off (line 437). *)
Definition takeoff_altitude : Q := 1.0.
End Orthogonal.

(** The two programs. *)
Inductive Variant : Type := Omni | Ortho.

Definition offb_ctrl_body (v : Variant) : Prog bool :=
  match v with
  | Omni => Omnidirectional.offb_ctrl_body
  | Ortho => Orthogonal.offb_ctrl_body
  end.

Definition takeoff_altitude (v : Variant) : Q :=
  match v with
  | Omni => Omnidirectional.takeoff_altitude
  | Ortho => Orthogonal.takeoff_altitude
  end.

(** ** The setpoint sequencer of the specification

    [run_sequence] follows section 4.2 of the specification, steps 1 to 6,
    for an arbitrary script; it is compared below with the two functions
    of the source, whose scripts are written into their bodies. *)

Record SequenceStep : Type := mkStep {
  command : Offboard.VelocityBodyYawspeed;
  dwell : N                                  (* whole seconds *)
}.

Inductive SequenceError : Type := StartFailed | StopFailed.

Definition neutral : Offboard.VelocityBodyYawspeed := Offboard.zero.
Definition settle : N := 2.

Fixpoint run_steps (steps : list SequenceStep) : Prog unit :=
  match steps with
  | [] => ret tt
  | s :: rest =>
      set_velocity_body (command s) ;;
      sleep_for (seconds (dwell s)) ;;
      run_steps rest
  end.

Definition run_sequence (steps : list SequenceStep) : Prog (option SequenceError) :=
  set_velocity_body neutral ;;
  started <- offboard_start ;;
  if negb (Offboard.eqb started Offboard.Success) then ret (Some StartFailed)
  else
  set_velocity_body neutral ;;
  sleep_for (seconds settle) ;;
  run_steps steps ;;
  set_velocity_body neutral ;;
  sleep_for (seconds settle) ;;
  stopped <- offboard_stop ;;
  if negb (Offboard.eqb stopped Offboard.Success) then ret (Some StopFailed)
  else ret None.

(** The scripts the two functions of the source carry in their bodies. *)
Definition script (v : Variant) : list SequenceStep :=
  let vel := Offboard.mkVelocity in
  match v with
  | Omni =>
      [ mkStep (vel 0.5 0.5 (-0.25) 0) 4;
        mkStep (vel 0.5 (-0.5) 0.25 0) 4;
        mkStep (vel (-0.5) (-0.5) (-0.25) 0) 4;
        mkStep (vel (-0.5) 0.5 0.25 0) 4;
        mkStep (vel 0 0.5 (-0.25) 22.5) 4;
        mkStep (vel 0 0.5 0.25 22.5) 4;
        mkStep (vel 0 0.5 (-0.25) 22.5) 4;
        mkStep (vel 0 0.5 0.25 22.5) 4 ]
  | Ortho =>
      [ mkStep (vel 0.5 0 0 0) 4 ]
  end.

(** ** Reading a trace *)

Definition is_send (ev : Event) : bool :=
  match ev with SetVelocityBody _ => true | _ => false end.
Definition is_start (ev : Event) : bool :=
  match ev with OffboardStart => true | _ => false end.
Definition is_stop (ev : Event) : bool :=
  match ev with OffboardStop => true | _ => false end.
Definition is_sleep (ev : Event) : bool :=
  match ev with SleepFor _ => true | _ => false end.

(** The events of the control channel and of the clock; console output is
    left out. *)
Definition is_channel (ev : Event) : bool :=
  is_send ev || is_start ev || is_stop ev || is_sleep ev.

Definition count (p : Event -> bool) (tr : list Event) : nat :=
  List.length (filter p tr).

Definition channel (tr : list Event) : list Event := filter is_channel tr.

(** The velocity commands of a trace, in the order they were sent. *)
Fixpoint sends (tr : list Event) : list Offboard.VelocityBodyYawspeed :=
  match tr with
  | [] => []
  | SetVelocityBody v :: rest => v :: sends rest
  | _ :: rest => sends rest
  end.

(** What the channel sees of one step: the command, then the dwell. *)
Definition step_events (s : SequenceStep) : list Event :=
  [SetVelocityBody (command s); SleepFor (seconds (dwell s))].

(** ** The library objects: [Mavsdk], [Telemetry], [Action] *)

Definition set_on_new_system (h : Handler) (w : World) : World :=
  mkWorld (clock w) (systems w) h (new_system_pending w)
          (prom w) (health_polls w) (landed_state_handler w)
          (landed_state_pending w) (in_air_promise w) (in_air_polls w).
Definition set_new_system_pending (q : list (N * System)) (w : World) : World :=
  mkWorld (clock w) (systems w) (on_new_system w) q
          (prom w) (health_polls w) (landed_state_handler w)
          (landed_state_pending w) (in_air_promise w) (in_air_polls w).
Definition add_system (s : System) (w : World) : World :=
  mkWorld (clock w) (systems w ++ [s]) (on_new_system w) (new_system_pending w)
          (prom w) (health_polls w) (landed_state_handler w)
          (landed_state_pending w) (in_air_promise w) (in_air_polls w).
Definition set_prom (p : option System) (w : World) : World :=
  mkWorld (clock w) (systems w) (on_new_system w) (new_system_pending w)
          p (health_polls w) (landed_state_handler w)
          (landed_state_pending w) (in_air_promise w) (in_air_polls w).
Definition set_health_polls (n : nat) (w : World) : World :=
  mkWorld (clock w) (systems w) (on_new_system w) (new_system_pending w)
          (prom w) n (landed_state_handler w)
          (landed_state_pending w) (in_air_promise w) (in_air_polls w).
Definition set_landed_state_handler (h : Handler) (w : World) : World :=
  mkWorld (clock w) (systems w) (on_new_system w) (new_system_pending w)
          (prom w) (health_polls w) h
          (landed_state_pending w) (in_air_promise w) (in_air_polls w).
Definition set_landed_state_pending
    (q : list (N * Telemetry.LandedState)) (w : World) : World :=
  mkWorld (clock w) (systems w) (on_new_system w) (new_system_pending w)
          (prom w) (health_polls w) (landed_state_handler w)
          q (in_air_promise w) (in_air_polls w).
Definition set_in_air_promise (b : bool) (w : World) : World :=
  mkWorld (clock w) (systems w) (on_new_system w) (new_system_pending w)
          (prom w) (health_polls w) (landed_state_handler w)
          (landed_state_pending w) b (in_air_polls w).
Definition set_in_air_polls (n : nat) (w : World) : World :=
  mkWorld (clock w) (systems w) (on_new_system w) (new_system_pending w)
          (prom w) (health_polls w) (landed_state_handler w)
          (landed_state_pending w) (in_air_promise w) n.

(** Modelled from the spec: [Mavsdk::add_any_connection], "connect(endpoint)
    -> Result" (section 6). *)
Definition add_any_connection (url : string) : Prog ConnectionResult.t :=
  emit (AddAnyConnection url) ;; ask connection_result.

(** Modelled from the spec: the two notification streams have "a
    subscribe/unsubscribe capability" (section 6), and unsubscribing
    "guarantees idempotent single-firing" (section 4.1).  There is one
    subscription slot per stream: subscribing replaces what the slot holds,
    and subscribing [nullptr] empties it. *)
Definition subscribe_on_new_system (h : Handler) : Prog unit :=
  emit (SubscribeOnNewSystem h) ;; modify (set_on_new_system h).
Definition subscribe_landed_state (h : Handler) : Prog unit :=
  emit (SubscribeLandedState h) ;; modify (set_landed_state_handler h).

(** [std::promise::set_value]: a second call on the same promise throws
    [std::future_error] (promise already satisfied). *)
Definition prom_set_value (s : System) : Prog unit :=
  emit (PromSetValue s) ;;
  p <- gets prom ;;
  match p with
  | Some _ => emit FutureError
  | None => modify (set_prom (Some s))
  end.
Definition in_air_promise_set_value : Prog unit :=
  emit InAirPromiseSetValue ;;
  p <- gets in_air_promise ;;
  if p then emit FutureError else modify (set_in_air_promise true).

(** Modelled from the spec: [telemetry.health_all_ok()] and
    [telemetry.in_air()], the "health predicate" and the "in-air predicate"
    of section 6; the answer to the n-th poll is read from the
    environment. *)
Definition health_all_ok : Prog bool :=
  emit HealthAllOk ;;
  n <- gets health_polls ;;
  modify (set_health_polls (S n)) ;;
  answer <- ask health_all_ok_at ;;
  ret (answer n).
Definition in_air : Prog bool :=
  emit InAirPoll ;;
  n <- gets in_air_polls ;;
  modify (set_in_air_polls (S n)) ;;
  answer <- ask in_air_at ;;
  ret (answer n).

(** Modelled from the spec: the calls of the [Action] plugin, "arm() /
    takeoff() / land() -> Result" (section 6).  The programs do not look at
    the results of the two configuration calls. *)
Definition arm : Prog Action.Result := emit Arm ;; ask arm_result.
Definition set_takeoff_altitude (a : Q) : Prog unit := emit (SetTakeoffAltitude a).
Definition set_current_speed (v : Q) : Prog unit := emit (SetCurrentSpeed v).
Definition takeoff : Prog Action.Result := emit Takeoff ;; ask takeoff_result.
Definition land : Prog Action.Result := emit Land ;; ask land_result.

(** ** [usage] (lines 25-33) *)

Definition usage (bin_name : string) : Prog unit :=
  cerr "Usage : " ;; cerr bin_name ;; cerr " <connection_url>\n" ;;
  cerr "Connection URL format should be :\n" ;;
  cerr " For TCP : tcp://[server_host][:server_port]\n" ;;
  cerr " For UDP : udp://[bind_host][:bind_port]\n" ;;
  cerr " For Serial : serial:///path/to/serial/dev[:baudrate]\n" ;;
  cerr "For example, to connect to the simulator use URL: udp://:14540\n".

(** ** [get_system] (lines 35-62) *)

(** The lambda given to [subscribe_on_new_system] (lines 42-52).  The
    library calls it after it has added the new system, so
    [mavsdk.systems()] is not empty when [back()] is taken. *)
Definition on_new_system_lambda : Prog unit :=
  all <- gets systems ;;
  match rev all with
  | [] => ret tt
  | system :: _ =>
      if has_autopilot system then
        cout "Discovered autopilot\n" ;;
        (* Unsubscribe again to get only one system *)
        subscribe_on_new_system Nullptr ;;
        prom_set_value system
      else ret tt
  end.

(** Modelled from the spec: the library delivers one discovery
    notification (section 5: a background mechanism "delivers notification
    callbacks"); it records the system, then calls whatever the slot
    holds. *)
Definition notify_new_system (s : System) : Prog unit :=
  modify (add_system s) ;;
  h <- gets on_new_system ;;
  match h with
  | Lambda => on_new_system_lambda
  | Nullptr => ret tt
  end.

(** [fut.wait_for(d)]: returns [ready] as soon as the promise is satisfied;
    otherwise the notifications that arrive strictly before the deadline
    are delivered in turn, and [timeout] is returned at the deadline. *)
Fixpoint fut_wait (q : list (N * System)) (d : N) : Prog future_status :=
  p <- gets prom ;;
  match p with
  | Some _ => ret ready
  | None =>
      match q with
      | [] => modify (tick d) ;; ret timeout
      | (gap, s) :: q' =>
          if (gap <? d)%N then
            modify (tick gap) ;;
            modify (set_new_system_pending q') ;;
            notify_new_system s ;;
            fut_wait q' (d - gap)
          else
            modify (tick d) ;;
            modify (set_new_system_pending ((gap - d, s)%N :: q')) ;;
            ret timeout
      end
  end.

Definition fut_wait_for (d : N) : Prog future_status :=
  emit (FutWaitFor d) ;;
  q <- gets new_system_pending ;;
  fut_wait q d.

(** [fut.get()]: blocks until the promise is satisfied. *)
Definition fut_get : Prog (option System) :=
  emit FutGet ;;
  p <- gets prom ;;
  match p with
  | Some s => ret (Some s)
  | None => diverge
  end.

(** The result is a [shared_ptr<System>]: [None] is the empty pointer. *)
Definition get_system : Prog (option System) :=
  cout "Waiting to discover system...\n" ;;
  modify (set_prom None) ;;                       (* auto prom = std::promise{} *)
  (* Wait for new systems to be discovered, use the autopilot once found *)
  subscribe_on_new_system Lambda ;;
  (* Wait at least 3 seconds to find an autopilot system *)
  status <- fut_wait_for (seconds 3) ;;
  match status with
  | timeout =>
      cerr "No autopilot found.\n" ;;
      ret None
  | ready | deferred =>
      (* Get discovered system now *)
      fut_get
  end.

(** ** [main] (lines 187-277 and 395-485) *)

(** The lambda given to [subscribe_landed_state] (lines 240-246). *)
Definition landed_state_lambda (state : Telemetry.LandedState) : Prog unit :=
  if Telemetry.eqb state Telemetry.InAir then
    cout "Taking off has finished\n." ;;
    subscribe_landed_state Nullptr ;;
    in_air_promise_set_value
  else ret tt.

(** Modelled from the spec: the library delivers one landed-state
    notification to whatever the slot holds. *)
Definition notify_landed_state (state : Telemetry.LandedState) : Prog unit :=
  h <- gets landed_state_handler ;;
  match h with
  | Lambda => landed_state_lambda state
  | Nullptr => ret tt
  end.

(** [in_air_future.wait_for(d)], as [fut_wait] above. *)
Fixpoint in_air_future_wait
    (q : list (N * Telemetry.LandedState)) (d : N) : Prog future_status :=
  p <- gets in_air_promise ;;
  if p then ret ready
  else
    match q with
    | [] => modify (tick d) ;; ret timeout
    | (gap, state) :: q' =>
        if (gap <? d)%N then
          modify (tick gap) ;;
          modify (set_landed_state_pending q') ;;
          notify_landed_state state ;;
          in_air_future_wait q' (d - gap)
        else
          modify (tick d) ;;
          modify (set_landed_state_pending ((gap - d, state)%N :: q')) ;;
          ret timeout
    end.

Definition in_air_future_wait_for (d : N) : Prog future_status :=
  emit (InAirFutureWaitFor d) ;;
  q <- gets landed_state_pending ;;
  in_air_future_wait q d.

(** Lines 214-217: [while (!telemetry.health_all_ok())].  The loop has no
    bound in the source; [fuel] bounds the number of times the model
    evaluates the loop condition. *)
Fixpoint wait_until_healthy (fuel : nat) : Prog unit :=
  match fuel with
  | O => diverge
  | S fuel' =>
      ok <- health_all_ok ;;
      if negb ok then
        cout "Waiting for system to be ready\n" ;;
        sleep_for (seconds 1) ;;
        wait_until_healthy fuel'
      else ret tt
  end.

(** Lines 266-269: [while (telemetry.in_air())]. *)
Fixpoint wait_until_landed (fuel : nat) : Prog unit :=
  match fuel with
  | O => diverge
  | S fuel' =>
      flying <- in_air ;;
      if flying then
        cout "Vehicle is landing...\n" ;;
        sleep_for (seconds 1) ;;
        wait_until_landed fuel'
      else ret tt
  end.

(** Lines 238-248: check if the vehicle is in the air after takeoff.  The
    block ends with the status of the second [wait_for]. *)
Definition wait_in_air : Prog future_status :=
  modify (set_in_air_promise false) ;;       (* auto in_air_promise = std::promise<void>{} *)
  subscribe_landed_state Lambda ;;
  _ <- in_air_future_wait_for (seconds 10) ;;
  in_air_future_wait_for (seconds 3).

(** The two [main] functions have the same text but for the takeoff
    altitude and the [offb_ctrl_body] they call. *)
Definition main (v : Variant) (fuel : nat) : Prog Z :=
  args <- ask argv ;;
  if negb (List.length args =? 2)%nat then
    usage (nth 0 args EmptyString) ;;
    ret 1%Z
  else
  (* Add connection *)
  connection_result <- add_any_connection (nth 1 args EmptyString) ;;
  if negb (ConnectionResult.eqb connection_result ConnectionResult.Success) then
    cerr "Connection failed: " ;;
    cerr_connection_result connection_result ;;
    cerr "\n" ;;
    ret 1%Z
  else
  system <- get_system ;;
  match system with
  | None => ret 1%Z
  | Some _ =>
  (* Check until vehicle is ready to arm *)
  wait_until_healthy fuel ;;
  cout "System is ready\n" ;;
  (* Arm vehicle *)
  arm_result <- arm ;;
  if negb (Action.eqb arm_result Action.Success) then
    cerr "Arming failed: " ;;
    cerr_action_result arm_result ;;
    cerr "\n" ;;
    ret 1%Z
  else
  cout "Armed\n" ;;
  (* Take off *)
  set_takeoff_altitude (takeoff_altitude v) ;;
  set_current_speed 0.25 ;;
  takeoff_result <- takeoff ;;
  if negb (Action.eqb takeoff_result Action.Success) then
    cerr "Takeoff failed: " ;;
    cerr_action_result takeoff_result ;;
    cerr "\n" ;;
    ret 1%Z
  else
  (* Check if the vehicle is in the air after takeoff *)
  status <- wait_in_air ;;
  match status with
  | timeout =>
      cerr "Takeoff timed out.\n" ;;
      ret 1%Z
  | ready | deferred =>
  (* Velocity control with body coordinates *)
  ok <- offb_ctrl_body v ;;
  if negb ok then ret 1%Z
  else
  (* Landing *)
  land_result <- land ;;
  if negb (Action.eqb land_result Action.Success) then
    cerr "Landing failed: " ;;
    cerr_action_result land_result ;;
    cerr "\n" ;;
    ret 1%Z
  else
  (* Check if the vehicle is still in the air while landing *)
  wait_until_landed fuel ;;
  cout "Landed!\n" ;;
  (* Wait to ensure safety and auto-disarm *)
  sleep_for (seconds 3) ;;
  cout "Finished...\n" ;;
  ret 0%Z
  end
  end.

(** One run of the process. *)
Definition run_main (v : Variant) (fuel : nat) (e : Env) :
    Outcome Z * World * list Event :=
  main v fuel e (init_world e).

(** ** Notions used to state the properties *)

(** The world after the dwells of a script have elapsed, and their sum. *)
Definition elapse (steps : list SequenceStep) (w : World) : World :=
  fold_left (fun w' s => tick (seconds (dwell s)) w') steps w.

Definition total_dwell (steps : list SequenceStep) : N :=
  fold_right (fun s acc => (seconds (dwell s) + acc)%N) 0%N steps.

(** What the control channel and the clock see of a complete run of the
    sequencer over [steps]. *)
Definition channel_script (steps : list SequenceStep) : list Event :=
  [SetVelocityBody neutral; OffboardStart;
   SetVelocityBody neutral; SleepFor (seconds settle)]
  ++ flat_map step_events steps
  ++ [SetVelocityBody neutral; SleepFor (seconds settle); OffboardStop].

(** The boolean of the source against the result of the specification. *)
Definition as_bool (r : Outcome (option SequenceError)) : Outcome bool :=
  match r with
  | Done None => Done true
  | Done (Some _) => Done false
  | Running => Running
  end.

(** A run in which every call succeeds: the autopilot is discovered after
    half a second, the vehicle is healthy at the third poll, in the air six
    seconds after takeoff, and on the ground at the sixth poll. *)
Definition nominal_env : Env :=
  mkEnv ["offboard"%string; "udp://:14540"%string]
        ConnectionResult.Success
        [(500%N, mkSystem 1 true)]
        (fun n => (2 <=? n)%nat)
        Action.Success
        Action.Success
        [(1000%N, Telemetry.OnGround); (1000%N, Telemetry.TakingOff);
         (4000%N, Telemetry.InAir); (1000%N, Telemetry.InAir)]
        Offboard.Success
        Offboard.Success
        Action.Success
        (fun n => (n <? 5)%nat).

(** The same run with another answer to [offboard.start()]. *)
Definition with_offboard_start (r : Offboard.Result) (e : Env) : Env :=
  mkEnv (argv e) (connection_result e) (new_systems e) (health_all_ok_at e)
        (arm_result e) (takeoff_result e) (landed_states e)
        r (offboard_stop_result e) (land_result e) (in_air_at e).

(** The events of a trace that follow the call to [offboard.start()]. *)
Fixpoint after_start (tr : list Event) : list Event :=
  match tr with
  | [] => []
  | OffboardStart :: rest => rest
  | _ :: rest => after_start rest
  end.

(** The events of a trace that come before the call to [offboard.start()]. *)
Fixpoint before_start (tr : list Event) : list Event :=
  match tr with
  | [] => []
  | OffboardStart :: _ => []
  | ev :: rest => ev :: before_start rest
  end.

Definition Qpositive (x : Q) : bool := negb (Qle_bool x 0).
Definition Qnegative (x : Q) : bool := negb (Qle_bool 0 x).

(** A list of commands flies out and back when some command with a positive
    forward velocity is followed, later on, by one with a negative forward
    velocity. *)
Fixpoint has_return_step (cmds : list Offboard.VelocityBodyYawspeed) : bool :=
  match cmds with
  | [] => false
  | c :: rest =>
      (Qpositive (Offboard.forward_m_s c)
       && existsb (fun b => Qnegative (Offboard.forward_m_s b)) rest)
      || has_return_step rest
  end.

(** The horizontal displacement of a step in the body frame (forward,
    right), in metres, and the yaw it turns, in degrees. *)
Definition step_seconds (s : SequenceStep) : Q := inject_Z (Z.of_N (dwell s)).
Definition leg (s : SequenceStep) : Q * Q :=
  (Offboard.forward_m_s (command s) * step_seconds s,
   Offboard.right_m_s (command s) * step_seconds s).
Definition turn_deg (s : SequenceStep) : Q :=
  Qred (Offboard.yawspeed_deg_s (command s) * step_seconds s).
Definition dot (a b : Q * Q) : Q := fst a * fst b + snd a * snd b.

(** The height a step gains, in metres: the body frame counts downwards. *)
Definition rise (s : SequenceStep) : Q :=
  Qred (- Offboard.down_m_s (command s) * step_seconds s).

(** Four legs flown at a constant heading make a square in the horizontal
    plane: their horizontal displacements close, consecutive ones are
    perpendicular, and all have the same, non-zero length.  What the legs
    do vertically is [rise]. *)
Definition is_square (legs : list SequenceStep) : bool :=
  forallb (fun s => Qeq_bool (Offboard.yawspeed_deg_s (command s)) 0) legs &&
  match map leg legs with
  | [a; b; c; d] =>
      Qeq_bool (fst a + fst b + fst c + fst d) 0
      && Qeq_bool (snd a + snd b + snd c + snd d) 0
      && Qeq_bool (dot a b) 0 && Qeq_bool (dot b c) 0
      && Qeq_bool (dot c d) 0 && Qeq_bool (dot d a) 0
      && Qeq_bool (dot a a) (dot b b) && Qeq_bool (dot b b) (dot c c)
      && Qeq_bool (dot c c) (dot d d) && negb (Qeq_bool (dot a a) 0)
  | _ => false
  end.

(** The instant at which each velocity command of a trace is sent, for a
    trace that starts at [now]: only [sleep_for] lets time pass in the
    sequencer. *)
Fixpoint send_times (now : N) (tr : list Event) :
    list (N * Offboard.VelocityBodyYawspeed) :=
  match tr with
  | [] => []
  | SetVelocityBody v :: rest => (now, v) :: send_times now rest
  | SleepFor d :: rest => send_times (now + d) rest
  | _ :: rest => send_times now rest
  end.

(** The durations the program hands to [sleep_for], in order. *)
Fixpoint sleeps (tr : list Event) : list N :=
  match tr with
  | [] => []
  | SleepFor d :: rest => d :: sleeps rest
  | _ :: rest => sleeps rest
  end.

(** The commands of a script, each sent when the dwell of the one before
    has elapsed. *)
Fixpoint timed_steps (now : N) (steps : list SequenceStep) :
    list (N * Offboard.VelocityBodyYawspeed) :=
  match steps with
  | [] => []
  | s :: rest => (now, command s) :: timed_steps (now + seconds (dwell s)) rest
  end.

(** ** The notification schedules, read as the specification reads them *)

(** The first system with an autopilot that is notified strictly before
    the deadline [d], with its arrival time counted from the start of the
    wait. *)
Fixpoint first_autopilot (q : list (N * System)) (d : N) : option (N * System) :=
  match q with
  | [] => None
  | (gap, s) :: q' =>
      if (gap <? d)%N then
        if has_autopilot s then Some (gap, s)
        else
          match first_autopilot q' (d - gap) with
          | Some (t, s') => Some ((gap + t)%N, s')
          | None => None
          end
      else None
  end.

(** The arrival time of the first [InAir] notification of a schedule. *)
Fixpoint in_air_time (q : list (N * Telemetry.LandedState)) : option N :=
  match q with
  | [] => None
  | (gap, state) :: q' =>
      if Telemetry.eqb state Telemetry.InAir then Some gap
      else option_map (N.add gap) (in_air_time q')
  end.

Definition airborne_within (q : list (N * Telemetry.LandedState)) (d : N) : bool :=
  match in_air_time q with
  | Some t => (t <? d)%N
  | None => false
  end.

(** The time a list of notifications takes to arrive: the sum of its gaps. *)
Definition total_gap {A : Type} (q : list (N * A)) : N :=
  fold_right (fun p acc => (fst p + acc)%N) 0%N q.

(** What is left of a schedule when [d] milliseconds have passed. *)
Fixpoint remaining (q : list (N * Telemetry.LandedState)) (d : N) :
    list (N * Telemetry.LandedState) :=
  match q with
  | [] => []
  | (gap, state) :: q' =>
      if (gap <? d)%N then remaining q' (d - gap)
      else ((gap - d)%N, state) :: q'
  end.

(** What the two lambdas do when their predicate holds. *)
Definition discovered_events (s : System) : list Event :=
  [Cout "Discovered autopilot\n"; SubscribeOnNewSystem Nullptr; PromSetValue s].
Definition in_air_events : list Event :=
  [Cout "Taking off has finished\n."; SubscribeLandedState Nullptr;
   InAirPromiseSetValue].

(** The library delivers a list of notifications, one after the other,
    whatever the control thread is doing. *)
Fixpoint notify_all_new_systems (l : list System) : Prog unit :=
  match l with
  | [] => ret tt
  | s :: rest => notify_new_system s ;; notify_all_new_systems rest
  end.
Fixpoint notify_all_landed_states (l : list Telemetry.LandedState) : Prog unit :=
  match l with
  | [] => ret tt
  | state :: rest => notify_landed_state state ;; notify_all_landed_states rest
  end.

Definition is_unsubscribe_landed (ev : Event) : bool :=
  match ev with SubscribeLandedState Nullptr => true | _ => false end.
Definition is_unsubscribe_new_system (ev : Event) : bool :=
  match ev with SubscribeOnNewSystem Nullptr => true | _ => false end.
(** The durations the program hands to [in_air_future.wait_for]. *)
Fixpoint in_air_waits (tr : list Event) : list N :=
  match tr with
  | [] => []
  | InAirFutureWaitFor d :: rest => d :: in_air_waits rest
  | _ :: rest => in_air_waits rest
  end.

(** The instant, counted from its start, at which a wait of [d]
    milliseconds on the in-air future returns. *)
Definition resolve_time (q : list (N * Telemetry.LandedState)) (d : N) : N :=
  match in_air_time q with
  | Some t => if (t <? d)%N then t else d
  | None => d
  end.

(** The traces of the two monitors, as functions of the schedule. *)
Definition get_system_events (q : list (N * System)) : list Event :=
  [Cout "Waiting to discover system...\n"; SubscribeOnNewSystem Lambda;
   FutWaitFor (seconds 3)]
  ++ match first_autopilot q (seconds 3) with
     | Some (_, s) => discovered_events s ++ [FutGet]
     | None => [Cerr "No autopilot found.\n"]
     end.

Definition wait_in_air_events (q : list (N * Telemetry.LandedState)) : list Event :=
  [SubscribeLandedState Lambda; InAirFutureWaitFor (seconds 10)]
  ++ (if airborne_within q (seconds 10) then in_air_events else [])
  ++ [InAirFutureWaitFor (seconds 3)]
  ++ (if negb (airborne_within q (seconds 10))
         && airborne_within q (seconds 10 + seconds 3)
      then in_air_events else []).

(** ** The polling loops, read as the specification reads them *)

(** The least [k < fuel] such that the poll number [start + k] answers
    [true]. *)
Fixpoint first_true (f : nat -> bool) (start fuel : nat) : option nat :=
  match fuel with
  | O => None
  | S fuel' =>
      if f start then Some O
      else option_map S (first_true f (S start) fuel')
  end.

(** One unsuccessful round of each loop. *)
Definition health_round : list Event :=
  [HealthAllOk; Cout "Waiting for system to be ready\n"; SleepFor (seconds 1)].
Definition landing_round : list Event :=
  [InAirPoll; Cout "Vehicle is landing...\n"; SleepFor (seconds 1)].

Fixpoint rounds (n : nat) (round : list Event) : list Event :=
  match n with
  | O => []
  | S n' => round ++ rounds n' round
  end.

Definition healthy_after (fuel : nat) (e : Env) : option nat :=
  first_true (health_all_ok_at e) 0 fuel.
Definition landed_after (fuel : nat) (e : Env) : option nat :=
  first_true (fun n => negb (in_air_at e n)) 0 fuel.

Definition health_events (fuel : nat) (e : Env) : list Event :=
  match healthy_after fuel e with
  | Some k => rounds k health_round ++ [HealthAllOk]
  | None => rounds fuel health_round
  end.
Definition landing_events (fuel : nat) (e : Env) : list Event :=
  match landed_after fuel e with
  | Some k => rounds k landing_round ++ [InAirPoll]
  | None => rounds fuel landing_round
  end.

(** ** The top-level routine, read as the specification reads it *)

(** The states of section 4.3. *)
Inductive Stage : Type :=
| Connecting | AwaitingPeer | AwaitingHealth | Arming | TakingOff
| ConfirmingAirborne | RunningSequence | Landing | ConfirmingGrounded.

Definition stage_rank (s : Stage) : nat :=
  match s with
  | Connecting => 1 | AwaitingPeer => 2 | AwaitingHealth => 3 | Arming => 4
  | TakingOff => 5 | ConfirmingAirborne => 6 | RunningSequence => 7
  | Landing => 8 | ConfirmingGrounded => 9
  end.

(** The failures of section 7, and a wrong argument count (section 6). *)
Inductive Failure : Type :=
| WrongArguments | ConnectionFailed | NoPeerFound | ArmFailed | TakeoffFailed
| TakeoffConfirmationTimedOut | SequenceStartFailed | SequenceStopFailed
| LandFailed.

(** The stage in which a failure is detected; a wrong argument count is
    detected before any stage. *)
Definition failure_rank (f : Failure) : nat :=
  match f with
  | WrongArguments => 0
  | ConnectionFailed => stage_rank Connecting
  | NoPeerFound => stage_rank AwaitingPeer
  | ArmFailed => stage_rank Arming
  | TakeoffFailed => stage_rank TakingOff
  | TakeoffConfirmationTimedOut => stage_rank ConfirmingAirborne
  | SequenceStartFailed | SequenceStopFailed => stage_rank RunningSequence
  | LandFailed => stage_rank Landing
  end.

(** How a run ends: it completes, it fails, or it is still polling in a
    stage when the fuel of the loops is spent. *)
Inductive Verdict : Type :=
| Finished
| Failed (f : Failure)
| Polling (s : Stage).

Definition peer (e : Env) : option System :=
  option_map snd (first_autopilot (new_systems e) (seconds 3)).
Definition airborne_confirmed (e : Env) : bool :=
  airborne_within (landed_states e) (seconds 10 + seconds 3).

Definition verdict (fuel : nat) (e : Env) : Verdict :=
  if negb (List.length (argv e) =? 2)%nat then Failed WrongArguments
  else if negb (ConnectionResult.eqb (connection_result e) ConnectionResult.Success)
  then Failed ConnectionFailed
  else
  match peer e with
  | None => Failed NoPeerFound
  | Some _ =>
  match healthy_after fuel e with
  | None => Polling AwaitingHealth
  | Some _ =>
  if negb (Action.eqb (arm_result e) Action.Success) then Failed ArmFailed
  else if negb (Action.eqb (takeoff_result e) Action.Success) then Failed TakeoffFailed
  else if negb (airborne_confirmed e) then Failed TakeoffConfirmationTimedOut
  else if negb (Offboard.eqb (offboard_start_result e) Offboard.Success)
  then Failed SequenceStartFailed
  else if negb (Offboard.eqb (offboard_stop_result e) Offboard.Success)
  then Failed SequenceStopFailed
  else if negb (Action.eqb (land_result e) Action.Success) then Failed LandFailed
  else
  match landed_after fuel e with
  | None => Polling ConfirmingGrounded
  | Some _ => Finished
  end
  end
  end.

(** The exit code of the process, when it exits. *)
Definition exit_code (r : Verdict) : Outcome Z :=
  match r with
  | Finished => Done 0%Z
  | Failed _ => Done 1%Z
  | Polling _ => Running
  end.

(** The stage an event belongs to; console output and sleeps occur in
    several stages and are given none. *)
Definition event_rank (ev : Event) : nat :=
  match ev with
  | AddAnyConnection _ => stage_rank Connecting
  | SubscribeOnNewSystem _ | PromSetValue _ | FutWaitFor _ | FutGet =>
      stage_rank AwaitingPeer
  | HealthAllOk => stage_rank AwaitingHealth
  | Arm => stage_rank Arming
  | SetTakeoffAltitude _ | SetCurrentSpeed _ | Takeoff => stage_rank TakingOff
  | SubscribeLandedState _ | InAirPromiseSetValue | InAirFutureWaitFor _ =>
      stage_rank ConfirmingAirborne
  | SetVelocityBody _ | OffboardStart | OffboardStop => stage_rank RunningSequence
  | Land => stage_rank Landing
  | InAirPoll => stage_rank ConfirmingGrounded
  | Cout _ | Cerr _ | CerrConnectionResult _ | CerrActionResult _
  | CerrOffboardResult _ | SleepFor _ | FutureError => 0
  end.

(** The remote calls that can fail. *)
Definition is_fallible_call (ev : Event) : bool :=
  match ev with
  | AddAnyConnection _ | Arm | Takeoff | OffboardStart | OffboardStop | Land => true
  | _ => false
  end.

Definition same_call (a b : Event) : bool :=
  match a, b with
  | AddAnyConnection _, AddAnyConnection _ | Arm, Arm | Takeoff, Takeoff
  | OffboardStart, OffboardStart | OffboardStop, OffboardStop | Land, Land => true
  | _, _ => false
  end.

(** The console and channel events of [offb_ctrl_body] depend on the
    environment only. *)
Definition offb_events (v : Variant) (e : Env) : list Event :=
  trace_of (offb_ctrl_body v e (init_world e)).

Definition usage_events (bin_name : string) : list Event :=
  [Cerr "Usage : "; Cerr bin_name; Cerr " <connection_url>\n";
   Cerr "Connection URL format should be :\n";
   Cerr " For TCP : tcp://[server_host][:server_port]\n";
   Cerr " For UDP : udp://[bind_host][:bind_port]\n";
   Cerr " For Serial : serial:///path/to/serial/dev[:baudrate]\n";
   Cerr "For example, to connect to the simulator use URL: udp://:14540\n"].

(** The trace of a run of [main], stage by stage: what follows the
    takeoff command, what follows the arm command, and the whole. *)
Definition after_takeoff_events (v : Variant) (fuel : nat) (e : Env) : list Event :=
  if negb (Action.eqb (takeoff_result e) Action.Success) then
    [Cerr "Takeoff failed: "; CerrActionResult (takeoff_result e); Cerr "\n"]
  else
  wait_in_air_events (landed_states e) ++
  if negb (airborne_confirmed e) then [Cerr "Takeoff timed out.\n"]
  else
  offb_events v e ++
  if negb (Offboard.eqb (offboard_start_result e) Offboard.Success) then []
  else if negb (Offboard.eqb (offboard_stop_result e) Offboard.Success) then []
  else
  Land ::
  if negb (Action.eqb (land_result e) Action.Success) then
    [Cerr "Landing failed: "; CerrActionResult (land_result e); Cerr "\n"]
  else
  landing_events fuel e ++
  match landed_after fuel e with
  | None => []
  | Some _ => [Cout "Landed!\n"; SleepFor (seconds 3); Cout "Finished...\n"]
  end.

Definition after_arm_events (v : Variant) (fuel : nat) (e : Env) : list Event :=
  if negb (Action.eqb (arm_result e) Action.Success) then
    [Cerr "Arming failed: "; CerrActionResult (arm_result e); Cerr "\n"]
  else
  Cout "Armed\n" :: SetTakeoffAltitude (takeoff_altitude v) ::
  SetCurrentSpeed 0.25 :: Takeoff :: after_takeoff_events v fuel e.

Definition main_events (v : Variant) (fuel : nat) (e : Env) : list Event :=
  if negb (List.length (argv e) =? 2)%nat then usage_events (nth 0 (argv e) EmptyString)
  else
  AddAnyConnection (nth 1 (argv e) EmptyString) ::
  if negb (ConnectionResult.eqb (connection_result e) ConnectionResult.Success)
  then [Cerr "Connection failed: "; CerrConnectionResult (connection_result e);
        Cerr "\n"]
  else
  get_system_events (new_systems e) ++
  match peer e with
  | None => []
  | Some _ =>
  health_events fuel e ++
  match healthy_after fuel e with
  | None => []
  | Some _ => Cout "System is ready\n" :: Arm :: after_arm_events v fuel e
  end
  end.

(** Full successful completion of the flight routine: every stage
    succeeds, and the two polling loops end within the fuel. *)
Definition full_success (fuel : nat) (e : Env) : Prop :=
  List.length (argv e) = 2%nat /\
  connection_result e = ConnectionResult.Success /\
  peer e <> None /\
  healthy_after fuel e <> None /\
  arm_result e = Action.Success /\
  takeoff_result e = Action.Success /\
  airborne_confirmed e = true /\
  offboard_start_result e = Offboard.Success /\
  offboard_stop_result e = Offboard.Success /\
  land_result e = Action.Success /\
  landed_after fuel e <> None.

(** What went wrong, for each failure. *)
Definition failure_cause (f : Failure) (e : Env) : Prop :=
  match f with
  | WrongArguments => List.length (argv e) <> 2%nat
  | ConnectionFailed => connection_result e <> ConnectionResult.Success
  | NoPeerFound => peer e = None
  | ArmFailed => arm_result e <> Action.Success
  | TakeoffFailed => takeoff_result e <> Action.Success
  | TakeoffConfirmationTimedOut => airborne_confirmed e = false
  | SequenceStartFailed => offboard_start_result e <> Offboard.Success
  | SequenceStopFailed => offboard_stop_result e <> Offboard.Success
  | LandFailed => land_result e <> Action.Success
  end.

(** No event of a trace belongs to a stage after the one of rank [r]. *)
Definition none_after (r : nat) (tr : list Event) : bool :=
  forallb (fun ev => (event_rank ev <=? r)%nat) tr.

(** Environments that differ from a given one in a single answer. *)
Definition with_arm (r : Action.Result) (e : Env) : Env :=
  mkEnv (argv e) (connection_result e) (new_systems e) (health_all_ok_at e)
        r (takeoff_result e) (landed_states e)
        (offboard_start_result e) (offboard_stop_result e) (land_result e)
        (in_air_at e).
Definition with_health (h : nat -> bool) (e : Env) : Env :=
  mkEnv (argv e) (connection_result e) (new_systems e) h
        (arm_result e) (takeoff_result e) (landed_states e)
        (offboard_start_result e) (offboard_stop_result e) (land_result e)
        (in_air_at e).
Definition with_landed_states (q : list (N * Telemetry.LandedState)) (e : Env) : Env :=
  mkEnv (argv e) (connection_result e) (new_systems e) (health_all_ok_at e)
        (arm_result e) (takeoff_result e) q
        (offboard_start_result e) (offboard_stop_result e) (land_result e)
        (in_air_at e).
Definition with_new_systems (q : list (N * System)) (e : Env) : Env :=
  mkEnv (argv e) (connection_result e) q (health_all_ok_at e)
        (arm_result e) (takeoff_result e) (landed_states e)
        (offboard_start_result e) (offboard_stop_result e) (land_result e)
        (in_air_at e).

(** ** Notions for the takeoff configuration and the health polling *)

Definition is_arm (ev : Event) : bool :=
  match ev with Arm => true | _ => false end.
Definition is_takeoff (ev : Event) : bool :=
  match ev with Takeoff => true | _ => false end.
Definition is_set_takeoff_altitude (ev : Event) : bool :=
  match ev with SetTakeoffAltitude _ => true | _ => false end.
Definition is_set_current_speed (ev : Event) : bool :=
  match ev with SetCurrentSpeed _ => true | _ => false end.
Definition is_health_poll (ev : Event) : bool :=
  match ev with HealthAllOk => true | _ => false end.

(** Lines 221-231 (and 429-439) on the path that reaches the takeoff. *)
Definition takeoff_block (v : Variant) : list Event :=
  [Arm; Cout "Armed\n"; SetTakeoffAltitude (takeoff_altitude v);
   SetCurrentSpeed 0.25; Takeoff].

(** No arming, no takeoff configuration and no takeoff in a trace. *)
Definition no_takeoff_calls (tr : list Event) : bool :=
  forallb (fun ev => negb (is_arm ev || is_set_takeoff_altitude ev
                           || is_set_current_speed ev || is_takeoff ev)) tr.

(** What [main] does before it arms. *)
Definition before_arm_events (fuel : nat) (e : Env) : list Event :=
  AddAnyConnection (nth 1 (argv e) EmptyString) ::
  get_system_events (new_systems e) ++ health_events fuel e
  ++ [Cout "System is ready\n"].

(** A vehicle that never reports itself healthy, and one whose landed
    state never becomes [InAir]. *)
Definition unhealthy_env : Env := with_health (fun _ => false) nominal_env.
Definition grounded_env : Env :=
  with_landed_states [(1000%N, Telemetry.OnGround); (1000%N, Telemetry.TakingOff)]
                     nominal_env.
Definition lonely_env : Env :=
  with_new_systems [(500%N, mkSystem 7 false)] nominal_env.


Definition is_in_air (state : Telemetry.LandedState) : bool :=
  Telemetry.eqb state Telemetry.InAir.

(** ** Notions for the other paths of [main] *)

Definition is_cerr (ev : Event) : bool :=
  match ev with
  | Cerr _ | CerrConnectionResult _ | CerrActionResult _ | CerrOffboardResult _ => true
  | _ => false
  end.
Definition is_land (ev : Event) : bool :=
  match ev with Land => true | _ => false end.
Definition is_in_air_poll (ev : Event) : bool :=
  match ev with InAirPoll => true | _ => false end.

(** What [main] does before it lands, and after it has called [land]. *)
Definition before_land_events (v : Variant) (fuel : nat) (e : Env) : list Event :=
  before_arm_events fuel e ++ takeoff_block v
  ++ wait_in_air_events (landed_states e) ++ offb_events v e.

Definition after_land_events (fuel : nat) (e : Env) : list Event :=
  if negb (Action.eqb (land_result e) Action.Success) then
    [Cerr "Landing failed: "; CerrActionResult (land_result e); Cerr "\n"]
  else
    landing_events fuel e ++
    match landed_after fuel e with
    | None => []
    | Some _ => [Cout "Landed!\n"; SleepFor (seconds 3); Cout "Finished...\n"]
    end.

(** The same run with another answer to [offboard.stop()], and a vehicle
    that never reports itself on the ground. *)
Definition with_offboard_stop (r : Offboard.Result) (e : Env) : Env :=
  mkEnv (argv e) (connection_result e) (new_systems e) (health_all_ok_at e)
        (arm_result e) (takeoff_result e) (landed_states e)
        (offboard_start_result e) r (land_result e) (in_air_at e).
Definition with_in_air (f : nat -> bool) (e : Env) : Env :=
  mkEnv (argv e) (connection_result e) (new_systems e) (health_all_ok_at e)
        (arm_result e) (takeoff_result e) (landed_states e)
        (offboard_start_result e) (offboard_stop_result e) (land_result e) f.
Definition with_argv (a : list string) (e : Env) : Env :=
  mkEnv a (connection_result e) (new_systems e) (health_all_ok_at e)
        (arm_result e) (takeoff_result e) (landed_states e)
        (offboard_start_result e) (offboard_stop_result e) (land_result e)
        (in_air_at e).

(** The calls of a trace never go back to an earlier stage: each event
    that belongs to a stage has a rank at least that of the last one
    before it ([from] for the first). *)
Fixpoint stages_in_order (from : nat) (tr : list Event) : bool :=
  match tr with
  | [] => true
  | ev :: rest =>
      match event_rank ev with
      | O => stages_in_order from rest
      | S r => (from <=? S r)%nat && stages_in_order (S r) rest
      end
  end.

(** The fallible remote calls of a complete flight, in order. *)
Definition flight_calls (e : Env) : list Event :=
  [AddAnyConnection (nth 1 (argv e) EmptyString); Arm; Takeoff;
   OffboardStart; OffboardStop; Land].

(** * Properties *)

(** ** Counting in traces *)

Lemma count_app (p : Event -> bool) (a b : list Event) :
  count p (a ++ b) = (count p a + count p b)%nat.
Proof. unfold count. now rewrite filter_app, length_app. Qed.

Lemma sends_app (a b : list Event) : sends (a ++ b) = sends a ++ sends b.
Proof.
  induction a as [|ev a IH]; simpl; [reflexivity|].
  destruct ev; simpl; now rewrite IH.
Qed.

Lemma sends_steps (steps : list SequenceStep) :
  sends (flat_map step_events steps) = map command steps.
Proof. induction steps as [|s rest IH]; simpl; congruence. Qed.

Lemma count_send_steps (steps : list SequenceStep) :
  count is_send (flat_map step_events steps) = List.length steps.
Proof.
  induction steps as [|s rest IH]; [reflexivity|].
  change (flat_map step_events (s :: rest))
    with (step_events s ++ flat_map step_events rest).
  rewrite count_app, IH. reflexivity.
Qed.

Lemma count_other_steps (p : Event -> bool) (steps : list SequenceStep) :
  (forall v, p (SetVelocityBody v) = false) ->
  (forall d, p (SleepFor d) = false) ->
  count p (flat_map step_events steps) = 0%nat.
Proof.
  intros Hv Hd. induction steps as [|s rest IH]; [reflexivity|].
  change (flat_map step_events (s :: rest))
    with (step_events s ++ flat_map step_events rest).
  rewrite count_app, IH. unfold count, step_events. simpl.
  now rewrite Hv, Hd.
Qed.

(** ** The sequencer *)

Lemma run_steps_run (steps : list SequenceStep) (e : Env) (w : World) :
  run_steps steps e w = (Done tt, elapse steps w, flat_map step_events steps).
Proof.
  revert w. induction steps as [|s rest IH]; intros w; [reflexivity|].
  simpl run_steps. unfold bind. cbn -[seconds run_steps]. rewrite IH. reflexivity.
Qed.

Lemma clock_elapse (steps : list SequenceStep) (w : World) :
  clock (elapse steps w) = (clock w + total_dwell steps)%N.
Proof.
  revert w. induction steps as [|s rest IH]; intros w; simpl.
  - now rewrite N.add_0_r.
  - unfold elapse in IH. rewrite IH. simpl. lia.
Qed.

Lemma run_sequence_run (steps : list SequenceStep) (e : Env) (w : World) :
  run_sequence steps e w =
  if negb (Offboard.eqb (offboard_start_result e) Offboard.Success) then
    (Done (Some StartFailed), w, [SetVelocityBody neutral; OffboardStart])
  else
    (Done (if negb (Offboard.eqb (offboard_stop_result e) Offboard.Success)
           then Some StopFailed else None),
     tick (seconds settle) (elapse steps (tick (seconds settle) w)),
     channel_script steps).
Proof.
  unfold run_sequence, bind. cbn -[seconds run_steps].
  destruct (Offboard.eqb (offboard_start_result e) Offboard.Success);
    cbn -[seconds run_steps]; [|reflexivity].
  rewrite run_steps_run. cbn -[seconds].
  destruct (Offboard.eqb (offboard_stop_result e) Offboard.Success);
    cbn -[seconds]; unfold channel_script; reflexivity.
Qed.

(** Each [offb_ctrl_body] of the source is the sequencer run over the
    script written in its body: same calls on the channel and the clock,
    same final world, same verdict. *)
Lemma offb_ctrl_body_refines (v : Variant) (e : Env) (w : World) :
  channel (trace_of (offb_ctrl_body v e w))
    = trace_of (run_sequence (script v) e w)
  /\ world_of (offb_ctrl_body v e w) = world_of (run_sequence (script v) e w)
  /\ outcome_of (offb_ctrl_body v e w)
     = as_bool (outcome_of (run_sequence (script v) e w)).
Proof.
  rewrite run_sequence_run.
  destruct v; cbn;
    destruct (offboard_start_result e); cbn;
    destruct (offboard_stop_result e); cbn; repeat split; reflexivity.
Qed.

(** C1. For every non-empty step sequence, when the start call and the
    stop call both succeed, the sequencer sends exactly [length steps + 3]
    velocity commands: a neutral one before the start, a neutral one after
    it, one per step in order, and a final neutral one; it calls start
    exactly once and stop exactly once.  The two [offb_ctrl_body] of the
    source do so for the scripts written in their bodies: exactly one
    command, the neutral one, is sent before the start, the others after
    it, and the stop is the last call. *)
Theorem run_sequence_command_sends :
  forall (steps : list SequenceStep) (e : Env) (w : World),
    steps <> [] ->
    offboard_start_result e = Offboard.Success ->
    offboard_stop_result e = Offboard.Success ->
    (let tr := trace_of (run_sequence steps e w) in
     tr = channel_script steps /\
     sends tr = neutral :: neutral :: map command steps ++ [neutral] /\
     count is_send tr = (List.length steps + 3)%nat /\
     count is_start tr = 1%nat /\
     count is_stop tr = 1%nat) /\
    (forall v : Variant, script v = steps ->
       let tr := trace_of (offb_ctrl_body v e w) in
       sends tr = neutral :: neutral :: map command steps ++ [neutral] /\
       count is_send tr = (List.length steps + 3)%nat /\
       count is_start tr = 1%nat /\
       count is_stop tr = 1%nat /\
       channel tr = channel_script steps /\
       sends (before_start tr) = [neutral] /\
       sends (after_start tr) = neutral :: map command steps ++ [neutral] /\
       count is_start (before_start tr) = 0%nat /\
       count is_stop (before_start tr) = 0%nat /\
       (exists pre : list Event, tr = pre ++ [OffboardStop; Cout "Offboard stopped\n"] /\
          count is_stop pre = 0%nat)).
Proof.
  intros steps e w _ Hstart Hstop. split.
  - rewrite run_sequence_run, Hstart, Hstop. cbn -[seconds channel_script count].
    split; [reflexivity|]. unfold channel_script. repeat split.
    + rewrite !sends_app, sends_steps. reflexivity.
    + rewrite !count_app, count_send_steps. unfold count. simpl. lia.
    + rewrite !count_app, count_other_steps by reflexivity. reflexivity.
    + rewrite !count_app, count_other_steps by reflexivity. reflexivity.
  - intros v <-.
    assert (Hpre : exists pre : list Event,
              trace_of (offb_ctrl_body v e w)
                = pre ++ [OffboardStop; Cout "Offboard stopped\n"] /\
              count is_stop pre = 0%nat).
    { exists (firstn (List.length (trace_of (offb_ctrl_body v e w)) - 2)
                     (trace_of (offb_ctrl_body v e w))).
      destruct v; cbn; rewrite Hstart; cbn; rewrite Hstop; cbn;
        split; reflexivity. }
    destruct v; cbn -[seconds] in Hpre |- *; rewrite Hstart in Hpre |- *;
      cbn -[seconds] in Hpre |- *; rewrite Hstop in Hpre |- *;
      cbn -[seconds] in Hpre |- *;
      repeat (split; [reflexivity|]); exact Hpre.
Qed.

Lemma run_sequence_command_sends_witness :
  script Omni <> [] /\
  count is_send (trace_of (offb_ctrl_body Omni nominal_env (init_world nominal_env)))
    = 11%nat /\
  count is_send (trace_of (run_sequence (script Omni) nominal_env
                                        (init_world nominal_env))) = 11%nat.
Proof.
  assert (Hne : script Omni <> []) by discriminate.
  destruct (run_sequence_command_sends (script Omni) nominal_env
              (init_world nominal_env) Hne eq_refl eq_refl)
    as [[_ [_ [Hspec _]]] Hcode].
  destruct (Hcode Omni eq_refl) as [_ [Hsrc _]].
  split; [exact Hne|]. split; [exact Hsrc | exact Hspec].
Defined.

(** C2. If the start call fails, [offb_ctrl_body] aborts at once and
    returns [false] (the [StartFailed] result of the sequencer): after the
    failed start nothing but the error message is produced, so no step
    command is sent and stop is not called, and no time passes.  In
    general stop is called only in runs where start succeeded. *)
Theorem start_failure_aborts :
  forall (v : Variant) (e : Env) (w : World),
    (offboard_start_result e <> Offboard.Success ->
       outcome_of (offb_ctrl_body v e w) = Done false /\
       outcome_of (run_sequence (script v) e w) = Done (Some StartFailed) /\
       after_start (trace_of (offb_ctrl_body v e w))
         = [Cerr "Offboard start failed: ";
            CerrOffboardResult (offboard_start_result e); Cerr "\n"] /\
       sends (after_start (trace_of (offb_ctrl_body v e w))) = [] /\
       count is_stop (trace_of (offb_ctrl_body v e w)) = 0%nat /\
       count is_start (trace_of (offb_ctrl_body v e w)) = 1%nat /\
       world_of (offb_ctrl_body v e w) = w) /\
    (In OffboardStop (trace_of (offb_ctrl_body v e w)) ->
       offboard_start_result e = Offboard.Success).
Proof.
  intros v e w. split.
  - intros Hfail. rewrite run_sequence_run.
    destruct v; cbn; destruct (offboard_start_result e);
      try congruence; cbn; repeat split; reflexivity.
  - destruct v; cbn; destruct (offboard_start_result e); cbn; try reflexivity;
      intros H; repeat (destruct H as [H|H]; [discriminate H|]); destruct H.
Qed.

Lemma start_failure_aborts_witness :
  offboard_start_result (with_offboard_start (Offboard.Other 6) nominal_env)
    <> Offboard.Success /\
  outcome_of (offb_ctrl_body Omni (with_offboard_start (Offboard.Other 6) nominal_env)
                             (init_world nominal_env)) = Done false /\
  (In OffboardStop (trace_of (offb_ctrl_body Ortho nominal_env (init_world nominal_env)))
   /\ offboard_start_result nominal_env = Offboard.Success).
Proof.
  assert (Hne : offboard_start_result
                  (with_offboard_start (Offboard.Other 6) nominal_env)
                <> Offboard.Success) by discriminate.
  split; [exact Hne|]. split.
  - exact (proj1 (proj1 (start_failure_aborts Omni
             (with_offboard_start (Offboard.Other 6) nominal_env)
             (init_world nominal_env)) Hne)).
  - assert (Hin : In OffboardStop
                    (trace_of (offb_ctrl_body Ortho nominal_env
                                              (init_world nominal_env)))).
    { cbn. do 13 right. left. reflexivity. }
    split; [exact Hin|].
    exact (proj2 (start_failure_aborts Ortho nominal_env
                    (init_world nominal_env)) Hin).
Defined.

Lemma send_times_steps (steps : list SequenceStep) :
  forall (now : N) (rest : list Event),
    send_times now (flat_map step_events steps ++ rest)
    = timed_steps now steps ++ send_times (now + total_dwell steps) rest.
Proof.
  induction steps as [|s steps IH]; intros now rest; simpl.
  - now rewrite N.add_0_r.
  - rewrite IH. now rewrite N.add_assoc.
Qed.

Lemma send_times_channel (tr : list Event) :
  forall now : N, send_times now (channel tr) = send_times now tr.
Proof.
  induction tr as [|ev tr IH]; intros now; [reflexivity|].
  destruct ev; simpl; now rewrite ?IH.
Qed.

(** C3. In every successful run the commands of the script go out in the
    order of the script, none skipped and none moved; each command is
    followed by a blocking sleep of its own dwell before the next command
    is sent, so that each command goes out at the instant the dwells of
    all the steps before it have elapsed; the clock has advanced by the
    two settle periods plus all the dwells when the run ends. *)
Theorem steps_run_in_order :
  (forall (steps : list SequenceStep) (e : Env) (w : World),
     outcome_of (run_sequence steps e w) = Done None ->
     trace_of (run_sequence steps e w) = channel_script steps /\
     send_times (clock w) (trace_of (run_sequence steps e w))
       = (clock w, neutral) :: (clock w, neutral)
         :: timed_steps (clock w + seconds settle) steps
         ++ [((clock w + seconds settle + total_dwell steps)%N, neutral)] /\
     clock (world_of (run_sequence steps e w))
       = (clock w + seconds settle + total_dwell steps + seconds settle)%N) /\
  (forall (v : Variant) (e : Env) (w : World),
     outcome_of (offb_ctrl_body v e w) = Done true ->
     channel (trace_of (offb_ctrl_body v e w)) = channel_script (script v) /\
     send_times (clock w) (trace_of (offb_ctrl_body v e w))
       = (clock w, neutral) :: (clock w, neutral)
         :: timed_steps (clock w + seconds settle) (script v)
         ++ [((clock w + seconds settle + total_dwell (script v))%N, neutral)] /\
     clock (world_of (offb_ctrl_body v e w))
       = (clock w + seconds settle + total_dwell (script v) + seconds settle)%N).
Proof.
  assert (Hspec : forall steps e w,
     outcome_of (run_sequence steps e w) = Done None ->
     trace_of (run_sequence steps e w) = channel_script steps /\
     send_times (clock w) (trace_of (run_sequence steps e w))
       = (clock w, neutral) :: (clock w, neutral)
         :: timed_steps (clock w + seconds settle) steps
         ++ [((clock w + seconds settle + total_dwell steps)%N, neutral)] /\
     clock (world_of (run_sequence steps e w))
       = (clock w + seconds settle + total_dwell steps + seconds settle)%N).
  { intros steps e w. rewrite run_sequence_run.
    destruct (negb (Offboard.eqb (offboard_start_result e) Offboard.Success));
      [discriminate|].
    intros _. split; [reflexivity|]. split.
    - unfold trace_of, channel_script. cbn -[seconds total_dwell flat_map app].
      cbn [app send_times]. rewrite send_times_steps. reflexivity.
    - unfold world_of. cbn -[seconds total_dwell elapse].
      rewrite clock_elapse. reflexivity. }
  split; [exact Hspec|].
  intros v e w Hok.
  destruct (offb_ctrl_body_refines v e w) as [Htr [Hw Ho]].
  rewrite <- (send_times_channel (trace_of (offb_ctrl_body v e w))).
  rewrite Htr, Hw. apply Hspec.
  rewrite Hok in Ho.
  destruct (outcome_of (run_sequence (script v) e w)) as [[err|]|];
    [discriminate Ho | reflexivity | discriminate Ho].
Qed.

Lemma steps_run_in_order_witness :
  outcome_of (offb_ctrl_body Omni nominal_env (init_world nominal_env)) = Done true /\
  channel (trace_of (offb_ctrl_body Omni nominal_env (init_world nominal_env)))
    = channel_script (script Omni).
Proof.
  split; [reflexivity|].
  exact (proj1 (proj2 steps_run_in_order Omni nominal_env
                  (init_world nominal_env) eq_refl)).
Defined.

(** ** The discovery wait of [get_system] *)

Lemma notify_new_system_run (s : System) (e : Env) (w : World) :
  notify_new_system s e w =
  match on_new_system w with
  | Nullptr => (Done tt, add_system s w, [])
  | Lambda =>
      if has_autopilot s then
        match prom w with
        | None =>
            (Done tt, set_prom (Some s) (set_on_new_system Nullptr (add_system s w)),
             discovered_events s)
        | Some _ =>
            (Done tt, set_on_new_system Nullptr (add_system s w),
             discovered_events s ++ [FutureError])
        end
      else (Done tt, add_system s w, [])
  end.
Proof.
  unfold notify_new_system, on_new_system_lambda, bind.
  cbn -[rev]. destruct (on_new_system w); [reflexivity|].
  unfold add_system at 1. cbn -[rev]. rewrite rev_app_distr. cbn.
  destruct (has_autopilot s); [|reflexivity].
  cbn. destruct (prom w); reflexivity.
Qed.

Lemma fut_wait_run (q : list (N * System)) :
  forall (d : N) (e : Env) (w : World),
    prom w = None -> on_new_system w = Lambda ->
    exists w',
      fut_wait q d e w =
        (Done (match first_autopilot q d with Some _ => ready | None => timeout end),
         w',
         match first_autopilot q d with
         | Some (_, s) => discovered_events s
         | None => []
         end)
      /\ prom w' = option_map snd (first_autopilot q d)
      /\ on_new_system w' =
           match first_autopilot q d with Some _ => Nullptr | None => Lambda end
      /\ clock w' =
           (clock w + match first_autopilot q d with Some (t, _) => t | None => d end)%N
      /\ health_polls w' = health_polls w
      /\ landed_state_pending w' = landed_state_pending w
      /\ in_air_polls w' = in_air_polls w.
Proof.
  induction q as [|[gap s] q' IH]; intros d e w Hp Hh.
  - eexists. unfold fut_wait, bind. cbn. rewrite Hp. cbn.
    repeat split; try reflexivity. exact Hp. exact Hh.
  - simpl fut_wait. unfold bind.
    cbn -[notify_new_system fut_wait first_autopilot]. rewrite Hp.
    simpl first_autopilot.
    destruct (gap <? d)%N eqn:Hlt.
    + cbn -[notify_new_system fut_wait first_autopilot].
      rewrite notify_new_system_run. cbn -[fut_wait first_autopilot].
      rewrite Hh, Hp.
      destruct (has_autopilot s) eqn:Hauto.
      * unfold fut_wait. destruct q'; unfold bind; cbn;
          eexists; repeat split; reflexivity.
      * set (w1 := add_system s (set_new_system_pending q' (tick gap w))).
        destruct (IH (d - gap)%N e w1) as [w' [Hrun [H1 [H2 [H3 [H4 [H5 H6]]]]]]];
          [exact Hp | exact Hh |].
        rewrite Hrun.
        exists w'. unfold w1 in *. clear w1.
        pose proof (proj1 (N.ltb_lt _ _) Hlt) as Hlt'.
        destruct (first_autopilot q' (d - gap)) as [[t s']|];
          cbn in *; repeat split; auto; rewrite H3; lia.
    + eexists. cbn. repeat split; try reflexivity; assumption.
Qed.

Lemma get_system_run (e : Env) (w : World) :
  exists w',
    get_system e w =
      (Done (option_map snd (first_autopilot (new_system_pending w) (seconds 3))),
       w', get_system_events (new_system_pending w))
    /\ on_new_system w' =
         match first_autopilot (new_system_pending w) (seconds 3) with
         | Some _ => Nullptr
         | None => Lambda
         end
    /\ clock w' =
         (clock w + match first_autopilot (new_system_pending w) (seconds 3) with
                    | Some (t, _) => t
                    | None => seconds 3
                    end)%N
    /\ health_polls w' = health_polls w
    /\ landed_state_pending w' = landed_state_pending w
    /\ in_air_polls w' = in_air_polls w
    /\ prom w' = option_map snd (first_autopilot (new_system_pending w) (seconds 3)).
Proof.
  unfold get_system, fut_wait_for, get_system_events, bind.
  cbn -[fut_wait first_autopilot seconds].
  set (w0 := set_on_new_system Lambda (set_prom None w)).
  destruct (fut_wait_run (new_system_pending w) (seconds 3) e w0)
    as [w' [Hrun [H1 [H2 [H3 [H4 [H5 H6]]]]]]]; [reflexivity | reflexivity |].
  rewrite Hrun.
  destruct (first_autopilot (new_system_pending w) (seconds 3)) as [[t s]|].
  - unfold fut_get, bind. cbn -[seconds]. cbn in H1. rewrite H1.
    exists w'. cbn -[seconds]. repeat split; auto.
  - exists w'. cbn -[seconds]. repeat split; auto.
Qed.

(** ** The takeoff-confirmation wait of [main] *)

Lemma notify_landed_state_run (state : Telemetry.LandedState) (e : Env) (w : World) :
  notify_landed_state state e w =
  match landed_state_handler w with
  | Nullptr => (Done tt, w, [])
  | Lambda =>
      if Telemetry.eqb state Telemetry.InAir then
        if in_air_promise w then
          (Done tt, set_landed_state_handler Nullptr w,
           in_air_events ++ [FutureError])
        else
          (Done tt, set_in_air_promise true (set_landed_state_handler Nullptr w),
           in_air_events)
      else (Done tt, w, [])
  end.
Proof.
  unfold notify_landed_state, landed_state_lambda, bind. cbn.
  destruct (landed_state_handler w); [reflexivity|].
  destruct (Telemetry.eqb state Telemetry.InAir); [|reflexivity].
  cbn. destruct (in_air_promise w); reflexivity.
Qed.

Lemma in_air_future_wait_ready (q : list (N * Telemetry.LandedState))
    (d : N) (e : Env) (w : World) :
  in_air_promise w = true ->
  in_air_future_wait q d e w = (Done ready, w, []).
Proof.
  intros Hp. destruct q as [|[gap state] q']; simpl; unfold bind; cbn;
    rewrite Hp; reflexivity.
Qed.

Lemma airborne_within_cons (gap : N) (state : Telemetry.LandedState)
    (q : list (N * Telemetry.LandedState)) (d : N) :
  airborne_within ((gap, state) :: q) d =
  (gap <? d)%N &&
  (Telemetry.eqb state Telemetry.InAir || airborne_within q (d - gap)).
Proof.
  unfold airborne_within. simpl.
  destruct (Telemetry.eqb state Telemetry.InAir); simpl.
  - now rewrite andb_true_r.
  - destruct (in_air_time q) as [t|]; simpl.
    + destruct (N.ltb_spec gap d), (N.ltb_spec (gap + t) d),
        (N.ltb_spec t (d - gap)); simpl; try reflexivity; lia.
    + now rewrite andb_false_r.
Qed.

Lemma resolve_time_cons (gap : N) (state : Telemetry.LandedState)
    (q : list (N * Telemetry.LandedState)) (d : N) :
  resolve_time ((gap, state) :: q) d =
  if (gap <? d)%N then
    if Telemetry.eqb state Telemetry.InAir then gap
    else (gap + resolve_time q (d - gap))%N
  else d.
Proof.
  unfold resolve_time. simpl.
  destruct (Telemetry.eqb state Telemetry.InAir); simpl.
  - reflexivity.
  - destruct (in_air_time q) as [t|]; simpl.
    + destruct (N.ltb_spec gap d), (N.ltb_spec (gap + t) d),
        (N.ltb_spec t (d - gap)); simpl; try reflexivity; lia.
    + destruct (N.ltb_spec gap d); lia.
Qed.

Lemma in_air_future_wait_run (q : list (N * Telemetry.LandedState)) :
  forall (d : N) (e : Env) (w : World),
    in_air_promise w = false -> landed_state_handler w = Lambda ->
    landed_state_pending w = q ->
    exists w',
      in_air_future_wait q d e w =
        (Done (if airborne_within q d then ready else timeout), w',
         if airborne_within q d then in_air_events else [])
      /\ in_air_promise w' = airborne_within q d
      /\ landed_state_handler w' = (if airborne_within q d then Nullptr else Lambda)
      /\ clock w' = (clock w + resolve_time q d)%N
      /\ (airborne_within q d = false -> landed_state_pending w' = remaining q d)
      /\ in_air_polls w' = in_air_polls w.
Proof.
  induction q as [|[gap state] q' IH]; intros d e w Hp Hh Hq.
  - exists (tick d w). unfold in_air_future_wait, bind. cbn. rewrite Hp. cbn.
    repeat split; auto.
  - rewrite airborne_within_cons, resolve_time_cons.
    simpl in_air_future_wait. unfold bind.
    cbn -[notify_landed_state in_air_future_wait airborne_within resolve_time].
    rewrite Hp. simpl remaining.
    destruct (gap <? d)%N eqn:Hlt.
    + cbn -[notify_landed_state in_air_future_wait airborne_within resolve_time].
      rewrite notify_landed_state_run.
      cbn -[in_air_future_wait airborne_within resolve_time].
      rewrite Hh, Hp.
      destruct (Telemetry.eqb state Telemetry.InAir) eqn:Hstate.
      * rewrite in_air_future_wait_ready by reflexivity.
        eexists. cbn. repeat split; try reflexivity. discriminate.
      * set (w1 := set_landed_state_pending q' (tick gap w)).
        destruct (IH (d - gap)%N e w1) as [w' [Hrun [H1 [H2 [H3 [H4 H5]]]]]];
          [exact Hp | exact Hh | reflexivity |].
        rewrite Hrun. exists w'. unfold w1 in *. clear w1. cbn in *.
        repeat split; auto. rewrite H3. lia.
    + eexists. cbn. repeat split; try reflexivity; assumption.
Qed.

Lemma in_air_time_remaining (q : list (N * Telemetry.LandedState)) :
  forall d : N,
    airborne_within q d = false ->
    in_air_time (remaining q d) = option_map (fun t => (t - d)%N) (in_air_time q).
Proof.
  induction q as [|[gap state] q' IH]; intros d Hno; [reflexivity|].
  rewrite airborne_within_cons in Hno. simpl.
  destruct (N.ltb_spec gap d) as [Hlt|Hge]; simpl in *.
  - destruct (Telemetry.eqb state Telemetry.InAir); [discriminate|].
    simpl in Hno. rewrite (IH _ Hno).
    destruct (in_air_time q') as [t|]; simpl; [|reflexivity].
    f_equal. unfold airborne_within in Hno.
    destruct (in_air_time q') as [t'|] eqn:Ht; lia.
  - destruct (Telemetry.eqb state Telemetry.InAir); simpl; [reflexivity|].
    destruct (in_air_time q') as [t|]; simpl; [|reflexivity].
    f_equal. lia.
Qed.

Lemma airborne_within_remaining (q : list (N * Telemetry.LandedState)) (d1 d2 : N) :
  airborne_within q d1 = false ->
  airborne_within (remaining q d1) d2 = airborne_within q (d1 + d2)
  /\ (d1 + resolve_time (remaining q d1) d2)%N = resolve_time q (d1 + d2)
  /\ resolve_time q d1 = d1.
Proof.
  intros Hno. unfold airborne_within, resolve_time in *.
  rewrite (in_air_time_remaining q d1) by exact Hno.
  destruct (in_air_time q) as [t|]; simpl.
  - rewrite Hno.
    destruct (N.ltb_spec t d1); [discriminate|].
    destruct (N.ltb_spec (t - d1) d2), (N.ltb_spec t (d1 + d2));
      repeat split; try reflexivity; lia.
  - repeat split; reflexivity.
Qed.

Lemma airborne_within_mono (q : list (N * Telemetry.LandedState)) (d1 d2 : N) :
  airborne_within q d1 = true ->
  airborne_within q (d1 + d2) = true
  /\ resolve_time q (d1 + d2) = resolve_time q d1.
Proof.
  unfold airborne_within, resolve_time.
  destruct (in_air_time q) as [t|]; [|discriminate].
  intros Hlt. rewrite Hlt.
  destruct (N.ltb_spec t d1); [|discriminate].
  destruct (N.ltb_spec t (d1 + d2)); split; try reflexivity; lia.
Qed.

Lemma wait_in_air_run (e : Env) (w : World) :
  let q := landed_state_pending w in
  exists w',
    wait_in_air e w =
      (Done (if airborne_within q (seconds 10 + seconds 3) then ready else timeout),
       w', wait_in_air_events q)
    /\ in_air_promise w' = airborne_within q (seconds 10 + seconds 3)
    /\ landed_state_handler w' =
         (if airborne_within q (seconds 10 + seconds 3) then Nullptr else Lambda)
    /\ clock w' = (clock w + resolve_time q (seconds 10 + seconds 3))%N
    /\ in_air_polls w' = in_air_polls w.
Proof.
  intros q. unfold wait_in_air, in_air_future_wait_for, wait_in_air_events, bind.
  cbn -[in_air_future_wait airborne_within resolve_time seconds N.add].
  set (w0 := set_landed_state_handler Lambda (set_in_air_promise false w)).
  destruct (in_air_future_wait_run q (seconds 10) e w0)
    as [w1 [Hrun [H1 [H2 [H3 [H4 H5]]]]]]; try reflexivity.
  fold q. rewrite Hrun.
  destruct (airborne_within q (seconds 10)) eqn:Hfirst.
  - destruct (airborne_within_mono q (seconds 10) (seconds 3) Hfirst) as [Hm Ht].
    rewrite Hm, Ht.
    rewrite in_air_future_wait_ready by exact H1.
    exists w1. cbn -[resolve_time seconds]. repeat split; auto.
  - destruct (airborne_within_remaining q (seconds 10) (seconds 3) Hfirst)
      as [Hr [Ht Hd]].
    rewrite <- Hr, <- Ht. rewrite Hd in H3.
    destruct (in_air_future_wait_run (landed_state_pending w1) (seconds 3) e w1)
      as [w2 [Hrun2 [G1 [G2 [G3 [G4 G5]]]]]]; try assumption; try reflexivity.
    rewrite (H4 eq_refl) in *. rewrite Hrun2.
    exists w2. cbn -[resolve_time seconds airborne_within remaining].
    destruct (airborne_within (remaining q (seconds 10)) (seconds 3));
      cbn -[resolve_time seconds remaining];
      repeat split; auto; try congruence;
      try (rewrite G3, H3; unfold w0; cbn -[resolve_time seconds remaining]; lia);
      rewrite G5, H5; reflexivity.
Qed.

(** ** The polling loops *)

Lemma wait_until_healthy_run (fuel : nat) :
  forall (e : Env) (w : World),
    exists w',
      wait_until_healthy fuel e w =
        (match first_true (health_all_ok_at e) (health_polls w) fuel with
         | Some _ => Done tt
         | None => Running
         end,
         w',
         match first_true (health_all_ok_at e) (health_polls w) fuel with
         | Some k => rounds k health_round ++ [HealthAllOk]
         | None => rounds fuel health_round
         end)
      /\ landed_state_pending w' = landed_state_pending w
      /\ in_air_polls w' = in_air_polls w.
Proof.
  induction fuel as [|fuel IH]; intros e w.
  - exists w. repeat split; reflexivity.
  - simpl wait_until_healthy. simpl first_true. unfold bind.
    cbn -[wait_until_healthy seconds first_true].
    destruct (health_all_ok_at e (health_polls w)).
    + eexists. cbn. repeat split; reflexivity.
    + cbn -[wait_until_healthy seconds first_true].
      match goal with
      | |- context [wait_until_healthy fuel e ?w1] =>
          destruct (IH e w1) as [w' [Hrun [H1 H2]]]
      end.
      rewrite Hrun. exists w'. cbn -[first_true] in Hrun |- *.
      destruct (first_true (health_all_ok_at e) (S (health_polls w)) fuel);
        cbn -[seconds]; repeat split; auto.
Qed.

Lemma wait_until_landed_run (fuel : nat) :
  forall (e : Env) (w : World),
    exists w',
      wait_until_landed fuel e w =
        (match first_true (fun n => negb (in_air_at e n)) (in_air_polls w) fuel with
         | Some _ => Done tt
         | None => Running
         end,
         w',
         match first_true (fun n => negb (in_air_at e n)) (in_air_polls w) fuel with
         | Some k => rounds k landing_round ++ [InAirPoll]
         | None => rounds fuel landing_round
         end).
Proof.
  induction fuel as [|fuel IH]; intros e w.
  - exists w. reflexivity.
  - simpl wait_until_landed. simpl first_true. unfold bind.
    cbn -[wait_until_landed seconds first_true].
    destruct (in_air_at e (in_air_polls w)).
    + cbn -[wait_until_landed seconds first_true].
      match goal with
      | |- context [wait_until_landed fuel e ?w1] =>
          destruct (IH e w1) as [w' Hrun]
      end.
      rewrite Hrun. exists w'. cbn -[first_true] in Hrun |- *.
      destruct (first_true (fun n => negb (in_air_at e n)) (S (in_air_polls w)) fuel);
        cbn -[seconds]; reflexivity.
    + eexists. cbn. reflexivity.
Qed.

(** ** [offb_ctrl_body] inside [main] *)

Lemma offb_ctrl_body_run (v : Variant) (e : Env) (w : World) :
  exists w',
    offb_ctrl_body v e w =
      (Done (Offboard.eqb (offboard_start_result e) Offboard.Success
             && Offboard.eqb (offboard_stop_result e) Offboard.Success),
       w', offb_events v e)
    /\ in_air_polls w' = in_air_polls w
    /\ landed_state_handler w' = landed_state_handler w.
Proof.
  unfold offb_events.
  destruct v; cbn; destruct (offboard_start_result e); cbn;
    destruct (offboard_stop_result e); cbn; eexists; repeat split; reflexivity.
Qed.

(** ** One run of [main] *)

Ltac step :=
  cbn -[get_system wait_until_healthy wait_in_air offb_ctrl_body
        wait_until_landed seconds first_autopilot airborne_within first_true
        get_system_events wait_in_air_events offb_events usage_events Nat.eqb
        N.add init_world rounds].

Ltac finish :=
  repeat split; try reflexivity; try discriminate;
  rewrite ?app_nil_r; try reflexivity; auto.

Lemma run_main_run (v : Variant) (fuel : nat) (e : Env) :
  outcome_of (run_main v fuel e) = exit_code (verdict fuel e)
  /\ trace_of (run_main v fuel e) = main_events v fuel e
  /\ (verdict fuel e = Failed NoPeerFound ->
      on_new_system (world_of (run_main v fuel e)) = Lambda)
  /\ (verdict fuel e = Failed TakeoffConfirmationTimedOut ->
      landed_state_handler (world_of (run_main v fuel e)) = Lambda).
Proof.
  unfold run_main, main, verdict, main_events, after_arm_events,
    after_takeoff_events, health_events, landing_events,
    peer, airborne_confirmed, healthy_after, landed_after, bind.
  step.
  destruct (List.length (argv e) =? 2)%nat; step; [|finish].
  destruct (ConnectionResult.eqb (connection_result e) ConnectionResult.Success);
    step; [|finish].
  destruct (get_system_run e (init_world e)) as [w1 [Hrun [A1 [A2 [A3 [A4 [A5 A6]]]]]]].
  rewrite Hrun. clear Hrun. cbn [init_world new_system_pending] in *.
  destruct (first_autopilot (new_systems e) (seconds 3)) as [[t s]|];
    step; [|finish].
  destruct (wait_until_healthy_run fuel e w1) as [w2 [Hrun [B1 B2]]].
  rewrite Hrun. clear Hrun. rewrite A3. cbn [health_polls init_world].
  destruct (first_true (health_all_ok_at e) 0 fuel) as [k|];
    step; [|finish].
  destruct (Action.eqb (arm_result e) Action.Success); step;
    [|finish].
  destruct (Action.eqb (takeoff_result e) Action.Success); step;
    [|finish].
  destruct (wait_in_air_run e w2) as [w3 [Hrun [C1 [C2 [C3 C4]]]]].
  rewrite Hrun. clear Hrun. rewrite B1, A4 in *. cbn [landed_state_pending init_world] in *.
  destruct (airborne_within (landed_states e) (seconds 10 + seconds 3));
    step; [|finish].
  destruct (offb_ctrl_body_run v e w3) as [w4 [Hrun [D1 D2]]].
  rewrite Hrun. clear Hrun.
  destruct (Offboard.eqb (offboard_start_result e) Offboard.Success); step;
    [|finish].
  destruct (Offboard.eqb (offboard_stop_result e) Offboard.Success); step;
    [|finish].
  destruct (Action.eqb (land_result e) Action.Success); step;
    [|finish].
  destruct (wait_until_landed_run fuel e w4) as [w5 Hrun].
  rewrite Hrun. clear Hrun. rewrite D1, C4, B2, A5. cbn [in_air_polls init_world].
  destruct (first_true (fun n => negb (in_air_at e n)) 0 fuel) as [k'|];
    step; finish.
Qed.

(** ** Facts about event lists *)

Lemma count_cons (p : Event -> bool) (ev : Event) (tr : list Event) :
  count p (ev :: tr) = ((if p ev then 1 else 0) + count p tr)%nat.
Proof. unfold count. simpl. destruct (p ev); reflexivity. Qed.

Lemma count_rounds (p : Event -> bool) (n : nat) (round : list Event) :
  count p (rounds n round) = (n * count p round)%nat.
Proof.
  induction n as [|n IH]; [reflexivity|].
  simpl rounds. rewrite count_app, IH. simpl. reflexivity.
Qed.

Lemma forallb_rounds (p : Event -> bool) (n : nat) (round : list Event) :
  forallb p round = true -> forallb p (rounds n round) = true.
Proof.
  intros H. induction n as [|n IH]; [reflexivity|].
  simpl rounds. now rewrite forallb_app, H, IH.
Qed.

(** Walk through the cases of a run of [main], in the order of the
    stages; [leaf] closes the cases in which the run stops.  [walk_head]
    covers the stages up to arming, [walk_tail] the ones from takeoff on. *)
Ltac simp_main :=
  cbn -[seconds first_autopilot airborne_within rounds healthy_after landed_after
        Nat.eqb N.add count none_after forallb filter In].

Ltac unfold_main :=
  cbv beta delta [main_events after_arm_events after_takeoff_events verdict
                  health_events landing_events get_system_events
                  wait_in_air_events offb_events airborne_confirmed peer
                  usage_events before_arm_events];
  simp_main.

Ltac walk_head fuel e leaf :=
  unfold_main;
  destruct (Nat.eqb_spec (List.length (argv e)) 2) as [Hargs|Hargs];
    simp_main; try solve [leaf];
  destruct (connection_result e) eqn:Hconn; simp_main; try solve [leaf];
  destruct (first_autopilot (new_systems e) (seconds 3)) as [[? ?]|] eqn:Hpeer;
    simp_main; try solve [leaf];
  destruct (healthy_after fuel e) eqn:Hhealth; simp_main; try solve [leaf];
  destruct (arm_result e) eqn:Harm; simp_main; try solve [leaf].

Ltac walk_tail v fuel e leaf :=
  unfold_main;
  destruct (takeoff_result e) eqn:Htakeoff; simp_main; try solve [leaf];
  destruct (airborne_within (landed_states e) (seconds 10)) eqn:Hair10;
  destruct (airborne_within (landed_states e) (seconds 10 + seconds 3)) eqn:Hair13;
    simp_main; try solve [leaf];
  destruct v; simp_main;
  destruct (offboard_start_result e) eqn:Hstart; simp_main; try solve [leaf];
  destruct (offboard_stop_result e) eqn:Hstop; simp_main; try solve [leaf];
  destruct (land_result e) eqn:Hland; simp_main; try solve [leaf];
  destruct (landed_after fuel e) eqn:Hlanded; simp_main; try solve [leaf].

Ltac walk_main v fuel e leaf :=
  walk_head fuel e leaf; walk_tail v fuel e leaf.

Lemma verdict_finished (fuel : nat) (e : Env) :
  verdict fuel e = Finished <-> full_success fuel e.
Proof.
  unfold full_success, airborne_confirmed, peer.
  pose (v := Omni).
  walk_main v fuel e
    ltac:(split; [discriminate | intros (?&?&?&?&?&?&?&?&?&?&?); congruence]).
  all: split; [intros _; repeat split; congruence | reflexivity].
Qed.

Lemma verdict_failed (fuel : nat) (e : Env) (f : Failure) :
  verdict fuel e = Failed f -> failure_cause f e.
Proof.
  unfold failure_cause, airborne_confirmed, peer.
  pose (v := Omni).
  walk_main v fuel e
    ltac:(intros H; try discriminate H; injection H as <-; congruence).
Qed.

Lemma none_after_failure (v : Variant) (fuel : nat) (e : Env) (f : Failure) :
  verdict fuel e = Failed f ->
  none_after (failure_rank f) (main_events v fuel e) = true.
Proof.
  unfold none_after.
  walk_main v fuel e
    ltac:(intros H; try discriminate H; injection H as <-;
          repeat (rewrite ?forallb_app; simpl forallb);
          rewrite ?forallb_rounds by reflexivity; reflexivity).
Qed.

Lemma filter_rounds_nil (p : Event -> bool) (n : nat) (round : list Event) :
  filter p round = [] -> filter p (rounds n round) = [].
Proof.
  intros H. induction n as [|n IH]; [reflexivity|].
  simpl rounds. now rewrite filter_app, H, IH.
Qed.

Lemma no_call_repeated (v : Variant) (fuel : nat) (e : Env) (call : Event) :
  is_fallible_call call = true ->
  (count (same_call call) (main_events v fuel e) <= 1)%nat.
Proof.
  intros Hcall.
  destruct call; try discriminate Hcall;
    walk_main v fuel e
      ltac:(unfold count;
            do 3 (simpl; rewrite ?filter_app, ?filter_rounds_nil by reflexivity);
            simpl; lia).
Qed.

Lemma first_true_found (f : nat -> bool) (fuel : nat) :
  forall start k : nat,
    f (start + k)%nat = true -> (k < fuel)%nat ->
    first_true f start fuel <> None.
Proof.
  induction fuel as [|fuel IH]; intros start k Hk Hlt; [lia|].
  simpl. destruct (f start) eqn:Hstart; [discriminate|].
  destruct k as [|k].
  - rewrite Nat.add_0_r in Hk. congruence.
  - specialize (IH (S start) k).
    replace (S start + k)%nat with (start + S k)%nat in IH by lia.
    specialize (IH Hk ltac:(lia)).
    destruct (first_true f (S start) fuel); [discriminate | congruence].
Qed.

Lemma main_exits (fuel : nat) (e : Env) :
  healthy_after fuel e <> None -> landed_after fuel e <> None ->
  exists code : Z, exit_code (verdict fuel e) = Done code.
Proof.
  pose (v := Omni).
  walk_main v fuel e
    ltac:(intros; first [congruence | eexists; reflexivity]).
Qed.

(** C7. The exit code is 0 exactly when the whole routine completes, and 1
    on every failure: wrong argument count, connection failure, no peer
    found, arm failure, takeoff failure, takeoff-confirmation timeout,
    offboard start or stop failure, land failure.  A failure is terminal:
    no call of a later stage follows it, and no fallible remote call is
    issued twice in a run.  The process does exit as soon as the vehicle
    reports itself healthy at some poll and on the ground at some poll. *)
Theorem exit_code_of_main :
  forall (v : Variant) (fuel : nat) (e : Env),
    (outcome_of (run_main v fuel e) = Done 0%Z <-> full_success fuel e) /\
    (forall code : Z, outcome_of (run_main v fuel e) = Done code ->
       code = 0%Z \/ code = 1%Z) /\
    (outcome_of (run_main v fuel e) = Done 1%Z <->
       exists f : Failure, verdict fuel e = Failed f) /\
    (forall f : Failure, verdict fuel e = Failed f ->
       failure_cause f e /\
       outcome_of (run_main v fuel e) = Done 1%Z /\
       none_after (failure_rank f) (trace_of (run_main v fuel e)) = true) /\
    (forall call : Event, is_fallible_call call = true ->
       (count (same_call call) (trace_of (run_main v fuel e)) <= 1)%nat) /\
    (forall k j : nat,
       health_all_ok_at e k = true -> in_air_at e j = false ->
       (k < fuel)%nat -> (j < fuel)%nat ->
       exists code : Z, outcome_of (run_main v fuel e) = Done code).
Proof.
  intros v fuel e.
  destruct (run_main_run v fuel e) as [Hout [Htr _]].
  rewrite Hout, Htr.
  split; [|split; [|split; [|split; [|split]]]].
  - split; intros H.
    + apply verdict_finished.
      destruct (verdict fuel e); simpl in H; congruence.
    + apply verdict_finished in H. now rewrite H.
  - intros code H. destruct (verdict fuel e); simpl in H;
      [injection H as <- | injection H as <- | discriminate H]; auto.
  - split.
    + intros H. destruct (verdict fuel e) as [|f|s]; simpl in H;
        try discriminate H. now exists f.
    + intros [f Hf]. now rewrite Hf.
  - intros f Hf. split; [|split].
    + now apply verdict_failed with (fuel := fuel).
    + now rewrite Hf.
    + now apply none_after_failure.
  - intros call Hcall. now apply no_call_repeated.
  - intros k j Hk Hj Hkf Hjf. apply main_exits.
    + now apply (first_true_found (health_all_ok_at e) fuel 0 k).
    + apply (first_true_found (fun n => negb (in_air_at e n)) fuel 0 j); [|exact Hjf].
      simpl. now rewrite Hj.
Qed.

Lemma exit_code_of_main_witness :
  verdict 6 (with_arm (Action.Other 5) nominal_env) = Failed ArmFailed /\
  outcome_of (run_main Omni 6 (with_arm (Action.Other 5) nominal_env)) = Done 1%Z /\
  is_fallible_call Takeoff = true /\
  (count (same_call Takeoff) (trace_of (run_main Omni 6 nominal_env)) <= 1)%nat /\
  outcome_of (run_main Omni 6 nominal_env) = Done 0%Z.
Proof.
  assert (Hv : verdict 6 (with_arm (Action.Other 5) nominal_env) = Failed ArmFailed)
    by reflexivity.
  split; [exact Hv|]. split.
  - exact (proj1 (proj2 (proj1 (proj2 (proj2 (proj2
             (exit_code_of_main Omni 6 (with_arm (Action.Other 5) nominal_env)))))
             ArmFailed Hv))).
  - split; [reflexivity|]. split.
    + exact (proj1 (proj2 (proj2 (proj2 (proj2 (exit_code_of_main Omni 6 nominal_env)))))
               Takeoff eq_refl).
    + apply (proj1 (exit_code_of_main Omni 6 nominal_env)).
      unfold full_success. repeat split; try reflexivity; discriminate.
Defined.

(** ** The takeoff configuration *)

Lemma in_takeoff_count (tr : list Event) :
  In Takeoff tr <-> (0 < count is_takeoff tr)%nat.
Proof.
  unfold count. induction tr as [|ev tr IH]; simpl.
  - split; [tauto | lia].
  - destruct ev; simpl; rewrite <- ?IH;
      try (split; [intros [H|H]; [discriminate H | exact H] | tauto]).
    split; [lia | auto].
Qed.

Ltac count_leaf :=
  unfold count;
  do 3 (simpl; rewrite ?filter_app, ?filter_rounds_nil by reflexivity);
  simpl.

Ltac forallb_leaf :=
  repeat (rewrite ?forallb_app; simpl forallb);
  rewrite ?forallb_rounds by reflexivity; reflexivity.

Lemma before_arm_no_takeoff_calls (fuel : nat) (e : Env) :
  no_takeoff_calls (before_arm_events fuel e) = true.
Proof.
  unfold no_takeoff_calls. unfold_main.
  destruct (first_autopilot (new_systems e) (seconds 3)) as [[? ?]|];
    destruct (healthy_after fuel e); forallb_leaf.
Qed.

Lemma after_takeoff_no_takeoff_calls (v : Variant) (fuel : nat) (e : Env) :
  no_takeoff_calls (after_takeoff_events v fuel e) = true.
Proof.
  unfold no_takeoff_calls.
  walk_tail v fuel e ltac:(forallb_leaf).
Qed.

Lemma main_events_takeoff (v : Variant) (fuel : nat) (e : Env) :
  (In Takeoff (main_events v fuel e) /\
   arm_result e = Action.Success /\
   main_events v fuel e
     = before_arm_events fuel e ++ takeoff_block v ++ after_takeoff_events v fuel e)
  \/
  (~ In Takeoff (main_events v fuel e) /\
   count is_set_takeoff_altitude (main_events v fuel e) = 0%nat /\
   count is_set_current_speed (main_events v fuel e) = 0%nat).
Proof.
  unfold takeoff_block, main_events, after_arm_events.
  generalize (after_takeoff_events v fuel e). intros tail.
  walk_head fuel e
    ltac:(right; split;
          [rewrite in_takeoff_count; count_leaf; lia
          | split; count_leaf; reflexivity]).
  left. split; [|split; [reflexivity|]].
  - repeat apply in_cons. apply in_or_app. right. simpl. tauto.
  - rewrite <- !app_assoc. reflexivity.
Qed.

(** C10. On every path that reaches the takeoff command, [main] has armed
    with success and then set the takeoff altitude (1.5 m in the
    omnidirectional program, 1.0 m in the orthogonal one) and the speed
    0.25 m/s, in this order and right before the takeoff; each of these
    calls occurs once in the run.  On the paths that stop before the
    takeoff the two configuration calls do not occur. *)
Theorem takeoff_is_configured_once :
  forall (v : Variant) (fuel : nat) (e : Env),
    (In Takeoff (trace_of (run_main v fuel e)) ->
       arm_result e = Action.Success /\
       (exists pre post : list Event,
          trace_of (run_main v fuel e) = pre ++ takeoff_block v ++ post /\
          no_takeoff_calls pre = true /\ no_takeoff_calls post = true) /\
       count is_set_takeoff_altitude (trace_of (run_main v fuel e)) = 1%nat /\
       count is_set_current_speed (trace_of (run_main v fuel e)) = 1%nat /\
       count is_takeoff (trace_of (run_main v fuel e)) = 1%nat) /\
    (~ In Takeoff (trace_of (run_main v fuel e)) ->
       count is_set_takeoff_altitude (trace_of (run_main v fuel e)) = 0%nat /\
       count is_set_current_speed (trace_of (run_main v fuel e)) = 0%nat) /\
    takeoff_block Omni
      = [Arm; Cout "Armed\n"; SetTakeoffAltitude 1.5; SetCurrentSpeed 0.25; Takeoff] /\
    takeoff_block Ortho
      = [Arm; Cout "Armed\n"; SetTakeoffAltitude 1.0; SetCurrentSpeed 0.25; Takeoff].
Proof.
  intros v fuel e.
  destruct (run_main_run v fuel e) as [_ [Htr _]]. rewrite Htr.
  assert (Hcount : forall p pre post,
            forallb (fun ev => negb (is_arm ev || is_set_takeoff_altitude ev
                                     || is_set_current_speed ev || is_takeoff ev)) pre
              = true ->
            forallb (fun ev => negb (is_arm ev || is_set_takeoff_altitude ev
                                     || is_set_current_speed ev || is_takeoff ev)) post
              = true ->
            (forall ev, p ev = true ->
               (is_arm ev || is_set_takeoff_altitude ev
                || is_set_current_speed ev || is_takeoff ev) = true) ->
            count p (pre ++ takeoff_block v ++ post) = count p (takeoff_block v)).
  { intros p pre post Hpre Hpost Hp.
    assert (Hzero : forall l,
              forallb (fun ev => negb (is_arm ev || is_set_takeoff_altitude ev
                                       || is_set_current_speed ev || is_takeoff ev)) l
                = true -> count p l = 0%nat).
    { induction l as [|ev l IH]; [reflexivity|]. simpl. intros H.
      apply andb_prop in H. destruct H as [Hev Hl].
      rewrite count_cons, (IH Hl).
      destruct (p ev) eqn:Hpev; [|reflexivity].
      rewrite (Hp ev Hpev) in Hev. discriminate Hev. }
    rewrite !count_app, (Hzero pre Hpre), (Hzero post Hpost). lia. }
  split; [|split; [|split; reflexivity]].
  - intros Hin.
    destruct (main_events_takeoff v fuel e) as [[_ [Harm Heq]]|[Hno _]];
      [|contradiction].
    split; [exact Harm|].
    pose proof (before_arm_no_takeoff_calls fuel e) as Hpre.
    pose proof (after_takeoff_no_takeoff_calls v fuel e) as Hpost.
    split; [|rewrite Heq; unfold no_takeoff_calls in Hpre, Hpost; repeat split].
    + exists (before_arm_events fuel e), (after_takeoff_events v fuel e).
      repeat split; assumption.
    + rewrite Hcount; [reflexivity | assumption | assumption |].
      intros ev H. destruct ev; try discriminate H; reflexivity.
    + rewrite Hcount; [reflexivity | assumption | assumption |].
      intros ev H. destruct ev; try discriminate H; reflexivity.
    + rewrite Hcount; [reflexivity | assumption | assumption |].
      intros ev H. destruct ev; try discriminate H; reflexivity.
  - intros Hnot.
    destruct (main_events_takeoff v fuel e) as [[Hin _]|[_ Hzero]];
      [contradiction | exact Hzero].
Qed.

Lemma takeoff_is_configured_once_witness :
  In Takeoff (trace_of (run_main Ortho 6 nominal_env)) /\
  count is_set_takeoff_altitude (trace_of (run_main Ortho 6 nominal_env)) = 1%nat /\
  ~ In Takeoff (trace_of (run_main Ortho 6 (with_arm (Action.Other 5) nominal_env))) /\
  count is_set_current_speed
    (trace_of (run_main Ortho 6 (with_arm (Action.Other 5) nominal_env))) = 0%nat.
Proof.
  assert (Hin : In Takeoff (trace_of (run_main Ortho 6 nominal_env))).
  { apply in_takeoff_count. vm_compute. lia. }
  assert (Hnot : ~ In Takeoff
                   (trace_of (run_main Ortho 6 (with_arm (Action.Other 5) nominal_env)))).
  { rewrite in_takeoff_count. vm_compute. lia. }
  split; [exact Hin|]. split.
  - exact (proj1 (proj2 (proj2 (proj1 (takeoff_is_configured_once Ortho 6 nominal_env)
                                   Hin)))).
  - split; [exact Hnot|].
    exact (proj2 (proj1 (proj2 (takeoff_is_configured_once Ortho 6
                                  (with_arm (Action.Other 5) nominal_env))) Hnot)).
Defined.

(** ** The health polling loop *)

Lemma first_true_none (f : nat -> bool) (fuel : nat) :
  forall start : nat,
    (forall n, f n = false) -> first_true f start fuel = None.
Proof.
  induction fuel as [|fuel IH]; intros start Hf; simpl; [reflexivity|].
  now rewrite Hf, IH.
Qed.

Lemma first_true_some (f : nat -> bool) (k : nat) :
  forall start fuel : nat,
    (forall i, (i < k)%nat -> f (start + i)%nat = false) ->
    f (start + k)%nat = true ->
    (k < fuel)%nat ->
    first_true f start fuel = Some k.
Proof.
  induction k as [|k IH]; intros start fuel Hbefore Hk Hfuel;
    (destruct fuel as [|fuel]; [lia|]); simpl.
  - rewrite Nat.add_0_r in Hk. now rewrite Hk.
  - pose proof (Hbefore 0%nat ltac:(lia)) as H0. rewrite Nat.add_0_r in H0.
    rewrite H0. rewrite (IH (S start) fuel); [reflexivity| | |lia].
    + intros i Hi. replace (S start + i)%nat with (start + S i)%nat by lia.
      apply Hbefore. lia.
    + now replace (S start + k)%nat with (start + S k)%nat by lia.
Qed.

(** C8. Once [main] has reached the health check, it polls
    [health_all_ok] and sleeps one second after each negative answer, until
    the answer is positive; nothing bounds the number of rounds.  When the
    answer is never positive, the routine is still polling whatever number
    of rounds it is given: it has made that many polls, it has not armed,
    and it has not exited. *)
Theorem health_polling_is_unbounded :
  forall (v : Variant) (e : Env),
    List.length (argv e) = 2%nat ->
    connection_result e = ConnectionResult.Success ->
    peer e <> None ->
    ((forall n : nat, health_all_ok_at e n = false) ->
     forall fuel : nat,
       outcome_of (run_main v fuel e) = Running /\
       verdict fuel e = Polling AwaitingHealth /\
       trace_of (run_main v fuel e)
         = AddAnyConnection (nth 1 (argv e) EmptyString)
           :: get_system_events (new_systems e) ++ rounds fuel health_round /\
       count is_health_poll (trace_of (run_main v fuel e)) = fuel /\
       count is_arm (trace_of (run_main v fuel e)) = 0%nat) /\
    (forall k : nat,
       (forall i : nat, (i < k)%nat -> health_all_ok_at e i = false) ->
       health_all_ok_at e k = true ->
       forall fuel : nat, (k < fuel)%nat ->
         trace_of (run_main v fuel e)
           = AddAnyConnection (nth 1 (argv e) EmptyString)
             :: get_system_events (new_systems e)
                ++ (rounds k health_round ++ [HealthAllOk])
                ++ Cout "System is ready\n" :: Arm :: after_arm_events v fuel e).
Proof.
  intros v e Hargs Hconn Hpeer.
  apply Nat.eqb_eq in Hargs.
  split.
  - intros Hnever fuel.
    destruct (run_main_run v fuel e) as [Hout [Htr _]]. rewrite Hout, Htr.
    assert (Hv : verdict fuel e = Polling AwaitingHealth).
    { unfold verdict, healthy_after. rewrite Hargs, Hconn. simpl.
      destruct (peer e); [|congruence].
      now rewrite first_true_none. }
    assert (Hev : main_events v fuel e
                  = AddAnyConnection (nth 1 (argv e) EmptyString)
                    :: get_system_events (new_systems e) ++ rounds fuel health_round).
    { unfold main_events, health_events, healthy_after. rewrite Hargs, Hconn. simpl.
      destruct (peer e); [|congruence].
      rewrite first_true_none by assumption. now rewrite app_nil_r. }
    rewrite Hv, Hev. repeat split.
    + rewrite count_cons, count_app, count_rounds. unfold get_system_events.
      destruct (first_autopilot (new_systems e) (seconds 3)) as [[? ?]|];
        unfold count; simpl; lia.
    + rewrite count_cons, count_app, count_rounds. unfold get_system_events.
      destruct (first_autopilot (new_systems e) (seconds 3)) as [[? ?]|];
        unfold count; simpl; lia.
  - intros k Hbefore Hk fuel Hfuel.
    destruct (run_main_run v fuel e) as [_ [Htr _]]. rewrite Htr.
    unfold main_events, health_events, healthy_after. rewrite Hargs, Hconn. simpl.
    destruct (peer e); [|congruence].
    rewrite (first_true_some (health_all_ok_at e) k 0 fuel); auto.
Qed.

Lemma health_polling_is_unbounded_witness :
  outcome_of (run_main Omni 40 unhealthy_env) = Running /\
  count is_health_poll (trace_of (run_main Omni 40 unhealthy_env)) = 40%nat /\
  count is_arm (trace_of (run_main Omni 40 unhealthy_env)) = 0%nat /\
  count is_health_poll (trace_of (run_main Omni 6 nominal_env)) = 3%nat.
Proof.
  assert (Hpeer : peer unhealthy_env <> None) by discriminate.
  destruct (health_polling_is_unbounded Omni unhealthy_env eq_refl eq_refl Hpeer)
    as [Hnever _].
  destruct (Hnever (fun _ => eq_refl) 40%nat) as [Hout [_ [_ [Hpolls Harm]]]].
  split; [exact Hout|]. split; [exact Hpolls|]. split; [exact Harm|].
  assert (Hpeer' : peer nominal_env <> None) by discriminate.
  destruct (health_polling_is_unbounded Omni nominal_env eq_refl eq_refl Hpeer')
    as [_ Hsome].
  rewrite (Hsome 2%nat); [vm_compute; reflexivity | | reflexivity | lia].
  intros i Hi. destruct i as [|[|i]]; [reflexivity | reflexivity | lia].
Defined.

(** ** Notifications delivered after a monitor has returned *)



(** A matching notification that is due before the deadline, with only
    other notifications before it, is the one the wait sees. *)
Lemma first_autopilot_complete (pre : list (N * System)) :
  forall (gap : N) (s : System) (post : list (N * System)) (d : N),
    forallb (fun p => negb (has_autopilot (snd p))) pre = true ->
    has_autopilot s = true ->
    (total_gap pre + gap < d)%N ->
    first_autopilot (pre ++ (gap, s) :: post) d = Some ((total_gap pre + gap)%N, s).
Proof.
  induction pre as [|[g0 s0] pre IH]; intros gap s post d Hpre Hs Hlt.
  - simpl in *. apply N.ltb_lt in Hlt. now rewrite Hlt, Hs.
  - simpl in Hpre, Hlt. apply andb_prop in Hpre. destruct Hpre as [H0 Hpre].
    apply negb_true_iff in H0. simpl.
    destruct (N.ltb_spec g0 d) as [_|Hge]; [|lia].
    rewrite H0, (IH gap s post (d - g0)%N Hpre Hs) by lia.
    f_equal. f_equal. lia.
Qed.




(** ** The timeout of the takeoff confirmation *)

(** C5, as stated, fails: when no [InAir] notification ever arrives, the
    program does not time out after one configured duration.  It waits on
    the future twice, 10 s and then 3 s, and reports the timeout after
    13 s. *)
Lemma takeoff_timeout_is_not_a_single_wait :
  outcome_of (wait_in_air grounded_env (init_world grounded_env)) = Done timeout /\
  ~ (exists d : N,
       in_air_waits (trace_of (wait_in_air grounded_env (init_world grounded_env)))
         = [d] /\
       clock (world_of (wait_in_air grounded_env (init_world grounded_env)))
         = (clock (init_world grounded_env) + d)%N).
Proof.
  split; [reflexivity|].
  intros [d [Hwaits _]]. vm_compute in Hwaits. discriminate Hwaits.
Qed.

Lemma in_air_waits_of_wait_in_air (q : list (N * Telemetry.LandedState)) :
  in_air_waits (wait_in_air_events q) = [seconds 10; seconds 3].
Proof.
  unfold wait_in_air_events.
  destruct (airborne_within q (seconds 10));
    destruct (airborne_within q (seconds 10 + seconds 3)); reflexivity.
Qed.

(** C5, amended.  The takeoff confirmation waits on the future twice in a
    row, 10 s (the status is ignored) and 3 s.  If an [InAir] notification
    arrives strictly before 13 s have passed, the future is [ready] (the
    monitor is resolved) at the instant of the notification, and [main]
    goes on to the offboard control; if none ever arrives, the status is
    [timeout] after exactly 10 s + 3 s, and [main] reports the timeout and
    exits with code 1. *)
Theorem takeoff_confirmation_outcome :
  (forall (e : Env) (w : World),
     in_air_waits (trace_of (wait_in_air e w)) = [seconds 10; seconds 3] /\
     (forall t : N,
        in_air_time (landed_state_pending w) = Some t ->
        (t < seconds 10 + seconds 3)%N ->
        outcome_of (wait_in_air e w) = Done ready /\
        clock (world_of (wait_in_air e w)) = (clock w + t)%N) /\
     (in_air_time (landed_state_pending w) = None ->
        outcome_of (wait_in_air e w) = Done timeout /\
        clock (world_of (wait_in_air e w))
          = (clock w + (seconds 10 + seconds 3))%N)) /\
  (forall (v : Variant) (fuel : nat) (e : Env),
     In Takeoff (trace_of (run_main v fuel e)) ->
     takeoff_result e = Action.Success ->
     (airborne_confirmed e = true ->
        In OffboardStart (trace_of (run_main v fuel e))) /\
     (airborne_confirmed e = false ->
        outcome_of (run_main v fuel e) = Done 1%Z /\
        exists pre : list Event,
          trace_of (run_main v fuel e) = pre ++ [Cerr "Takeoff timed out.\n"])).
Proof.
  split.
  - intros e w.
    destruct (wait_in_air_run e w) as [w1 [Hrun [_ [_ [Hclock _]]]]].
    rewrite Hrun. unfold outcome_of, world_of, trace_of. cbn [fst snd].
    split; [apply in_air_waits_of_wait_in_air|].
    rewrite Hclock. unfold airborne_within, resolve_time. split.
    + intros t Ht Hlt. rewrite Ht.
      apply N.ltb_lt in Hlt. rewrite Hlt. split; reflexivity.
    + intros Hnone. rewrite Hnone. split; reflexivity.
  - intros v fuel e Hin Htakeoff.
    destruct (run_main_run v fuel e) as [Hout [Htr _]].
    rewrite Htr in *. rewrite Hout.
    assert (Hhead : exists k, healthy_after fuel e = Some k /\
                              List.length (argv e) = 2%nat /\
                              connection_result e = ConnectionResult.Success /\
                              peer e <> None).
    { revert Hin. unfold peer.
      walk_head fuel e ltac:(rewrite in_takeoff_count; count_leaf; lia).
      intros _. eexists. repeat split; try reflexivity; try assumption;
        discriminate. }
    destruct Hhead as [k [Hk [Hargs [Hconn Hpeer]]]].
    destruct (main_events_takeoff v fuel e) as [[_ [Harm Heq]]|[Hno _]];
      [|contradiction].
    rewrite Heq. unfold after_takeoff_events. rewrite Htakeoff. simpl negb.
    cbv iota. split.
    + intros Hair. rewrite Hair. simpl negb. cbv iota.
      apply in_or_app. right. apply in_or_app. right.
      apply in_or_app. right. apply in_or_app. left.
      unfold offb_events.
      destruct v; cbn; destruct (offboard_start_result e); cbn;
        destruct (offboard_stop_result e); cbn;
        do 2 right; left; reflexivity.
    + intros Hair. split.
      * unfold verdict. apply Nat.eqb_eq in Hargs.
        rewrite Hargs, Hconn, Hk, Harm, Htakeoff, Hair. simpl.
        destruct (peer e); [reflexivity | congruence].
      * rewrite Hair. simpl negb. cbv iota.
        exists (before_arm_events fuel e ++ takeoff_block v
                ++ wait_in_air_events (landed_states e)).
        now rewrite <- !app_assoc.
Qed.

Lemma takeoff_confirmation_outcome_witness :
  in_air_time (landed_state_pending (init_world nominal_env)) = Some 6000%N /\
  (6000 < seconds 10 + seconds 3)%N /\
  clock (world_of (wait_in_air nominal_env (init_world nominal_env))) = 6000%N /\
  in_air_time (landed_state_pending (init_world grounded_env)) = None /\
  clock (world_of (wait_in_air grounded_env (init_world grounded_env))) = 13000%N /\
  outcome_of (run_main Omni 6 grounded_env) = Done 1%Z.
Proof.
  assert (Ht : in_air_time (landed_state_pending (init_world nominal_env))
               = Some 6000%N) by reflexivity.
  assert (Hlt : (6000 < seconds 10 + seconds 3)%N) by (vm_compute; reflexivity).
  assert (Hnone : in_air_time (landed_state_pending (init_world grounded_env)) = None)
    by reflexivity.
  assert (Hin : In Takeoff (trace_of (run_main Omni 6 grounded_env))).
  { apply in_takeoff_count. vm_compute. lia. }
  split; [exact Ht|]. split; [exact Hlt|]. split.
  - exact (proj2 (proj1 (proj2 (proj1 takeoff_confirmation_outcome nominal_env
                                   (init_world nominal_env))) 6000%N Ht Hlt)).
  - split; [exact Hnone|]. split.
    + exact (proj2 (proj2 (proj2 (proj1 takeoff_confirmation_outcome grounded_env
                                     (init_world grounded_env))) Hnone)).
    + exact (proj1 (proj2 (proj2 takeoff_confirmation_outcome Omni 6%nat grounded_env
                             Hin eq_refl) eq_refl)).
Defined.

(** ** The subscription on the timeout path *)

Lemma no_peer_keeps_subscription (v : Variant) (fuel : nat) (e : Env) :
  verdict fuel e = Failed NoPeerFound ->
  count is_unsubscribe_new_system (main_events v fuel e) = 0%nat.
Proof.
  walk_main v fuel e ltac:(intros H; try discriminate H; count_leaf; reflexivity).
Qed.

Lemma takeoff_timeout_keeps_subscription (v : Variant) (fuel : nat) (e : Env) :
  verdict fuel e = Failed TakeoffConfirmationTimedOut ->
  count is_unsubscribe_landed (main_events v fuel e) = 0%nat.
Proof.
  walk_main v fuel e
    ltac:(intros H; try discriminate H;
          first [ exfalso;
                  destruct (airborne_within_mono _ _ (seconds 3) Hair10);
                  congruence
                | count_leaf; reflexivity ]).
Qed.

(** C6. On the timeout path of a monitor nothing unsubscribes: the slot
    still holds the lambda when the wait returns [timeout], and it still
    holds it when the process exits.  The [nullptr] subscription is made
    by the lambda only, on the match path. *)
Theorem timeout_leaves_subscription :
  (forall (e : Env) (w : World),
     (outcome_of (get_system e w) = Done None ->
        on_new_system (world_of (get_system e w)) = Lambda /\
        count is_unsubscribe_new_system (trace_of (get_system e w)) = 0%nat) /\
     ((0 < count is_unsubscribe_new_system (trace_of (get_system e w)))%nat ->
        exists s : System, outcome_of (get_system e w) = Done (Some s)) /\
     (outcome_of (wait_in_air e w) = Done timeout ->
        landed_state_handler (world_of (wait_in_air e w)) = Lambda /\
        count is_unsubscribe_landed (trace_of (wait_in_air e w)) = 0%nat) /\
     ((0 < count is_unsubscribe_landed (trace_of (wait_in_air e w)))%nat ->
        outcome_of (wait_in_air e w) = Done ready)) /\
  (forall (v : Variant) (fuel : nat) (e : Env),
     (verdict fuel e = Failed NoPeerFound ->
        on_new_system (world_of (run_main v fuel e)) = Lambda /\
        count is_unsubscribe_new_system (trace_of (run_main v fuel e)) = 0%nat) /\
     (verdict fuel e = Failed TakeoffConfirmationTimedOut ->
        landed_state_handler (world_of (run_main v fuel e)) = Lambda /\
        count is_unsubscribe_landed (trace_of (run_main v fuel e)) = 0%nat)).
Proof.
  split.
  - intros e w.
    destruct (get_system_run e w) as [w1 [Hrun [Hh _]]].
    destruct (wait_in_air_run e w) as [w2 [Hrun' [_ [Hh' _]]]].
    rewrite Hrun, Hrun'. unfold outcome_of, world_of, trace_of. cbn [fst snd].
    rewrite Hh, Hh'. unfold get_system_events, wait_in_air_events.
    split; [|split; [|split]].
    + destruct (first_autopilot (new_system_pending w) (seconds 3)) as [[t s]|];
        [discriminate | intros _; split; reflexivity].
    + destruct (first_autopilot (new_system_pending w) (seconds 3)) as [[t s]|];
        [intros _; now exists s | cbv; lia].
    + destruct (airborne_within (landed_state_pending w) (seconds 10)) eqn:H10.
      * destruct (airborne_within_mono _ _ (seconds 3) H10) as [H13 _].
        rewrite H13. discriminate.
      * destruct (airborne_within (landed_state_pending w) (seconds 10 + seconds 3));
          [discriminate | intros _; split; reflexivity].
    + destruct (airborne_within (landed_state_pending w) (seconds 10)) eqn:H10.
      * destruct (airborne_within_mono _ _ (seconds 3) H10) as [H13 _].
        rewrite H13. reflexivity.
      * destruct (airborne_within (landed_state_pending w) (seconds 10 + seconds 3));
          [reflexivity | cbv; lia].
  - intros v fuel e.
    destruct (run_main_run v fuel e) as [_ [Htr [Hpeer Hair]]]. rewrite Htr.
    split; intros Hv.
    + split; [now apply Hpeer | now apply no_peer_keeps_subscription].
    + split; [now apply Hair | now apply takeoff_timeout_keeps_subscription].
Qed.

Lemma timeout_leaves_subscription_witness :
  outcome_of (wait_in_air grounded_env (init_world grounded_env)) = Done timeout /\
  landed_state_handler (world_of (wait_in_air grounded_env (init_world grounded_env)))
    = Lambda /\
  verdict 6 lonely_env = Failed NoPeerFound /\
  on_new_system (world_of (run_main Ortho 6 lonely_env)) = Lambda.
Proof.
  assert (Hto : outcome_of (wait_in_air grounded_env (init_world grounded_env))
                = Done timeout) by reflexivity.
  assert (Hv : verdict 6 lonely_env = Failed NoPeerFound) by reflexivity.
  split; [exact Hto|]. split.
  - exact (proj1 (proj1 (proj2 (proj2 (proj1 timeout_leaves_subscription grounded_env
                                         (init_world grounded_env)))) Hto)).
  - split; [exact Hv|].
    exact (proj1 (proj1 (proj2 timeout_leaves_subscription Ortho 6%nat lonely_env) Hv)).
Defined.

(** ** The two flight scripts *)

(** C9, as stated, fails: the orthogonal program does not fly out and
    back.  Among the commands it sends in a complete run, none has a
    negative forward velocity, so no forward step is followed by a return
    step. *)
Lemma orthogonal_script_has_no_return_step :
  outcome_of (offb_ctrl_body Ortho nominal_env (init_world nominal_env)) = Done true /\
  has_return_step
    (sends (trace_of (offb_ctrl_body Ortho nominal_env (init_world nominal_env))))
    = false /\
  existsb (fun c => Qnegative (Offboard.forward_m_s c))
    (sends (trace_of (offb_ctrl_body Ortho nominal_env (init_world nominal_env))))
    = false.
Proof. repeat split; reflexivity. Qed.

(** C9, amended.  In a complete run each program sends to the control
    channel, between the hovers, the commands of its script, each followed
    by a sleep of its dwell.  The omnidirectional script is eight steps of
    4 s.  The first four are flown at a constant heading; their horizontal
    displacements (2 m forward or backward and 2 m right or left each)
    form a closed square, while the vehicle climbs 1 m and descends 1 m
    in turn.  The last four are quarter circles: 0.5 m/s to the right
    while yawing 22.5 deg/s, a turn of 90 degrees each, again climbing
    and descending 1 m in turn.  The orthogonal script is the single step
    [forward 0.5 m/s for 4 s]: 2 m straight out, level, and no step
    back. *)
Theorem flight_scripts :
  forall (e : Env) (w : World),
    offboard_start_result e = Offboard.Success ->
    offboard_stop_result e = Offboard.Success ->
    (forall v : Variant,
       sends (trace_of (offb_ctrl_body v e w))
         = neutral :: neutral :: map command (script v) ++ [neutral]) /\
    List.length (script Omni) = 8%nat /\
    is_square (firstn 4 (script Omni)) = true /\
    map turn_deg (firstn 4 (script Omni)) = [0; 0; 0; 0] /\
    map turn_deg (skipn 4 (script Omni)) = [90; 90; 90; 90] /\
    script Ortho = [mkStep (Offboard.mkVelocity 0.5 0 0 0) 4] /\
    map (fun s => (Qred (fst (leg s)), Qred (snd (leg s)))) (script Ortho) = [(2, 0)] /\
    has_return_step (sends (trace_of (offb_ctrl_body Ortho e w))) = false /\
    (forall v : Variant,
       channel (trace_of (offb_ctrl_body v e w)) = channel_script (script v)) /\
    (forall v : Variant,
       sleeps (trace_of (offb_ctrl_body v e w))
         = seconds 2 :: map (fun s => seconds (dwell s)) (script v) ++ [seconds 2]) /\
    map dwell (script Omni) = [4; 4; 4; 4; 4; 4; 4; 4]%N /\
    map (fun s => (Qred (fst (leg s)), Qred (snd (leg s)))) (script Omni)
      = [(2, 2); (2, -2); (-2, -2); (-2, 2); (0, 2); (0, 2); (0, 2); (0, 2)] /\
    map rise (script Omni) = [1; -1; 1; -1; 1; -1; 1; -1] /\
    map rise (script Ortho) = [0].
Proof.
  intros e w Hstart Hstop. split.
  - intros v. destruct v; cbn; rewrite Hstart; cbn; rewrite Hstop; reflexivity.
  - repeat split; try reflexivity;
      try (cbn; rewrite Hstart; cbn; rewrite Hstop; reflexivity);
      intros v; destruct v; cbn -[seconds]; rewrite Hstart; cbn -[seconds];
      rewrite Hstop; reflexivity.
Qed.

Lemma flight_scripts_witness :
  offboard_start_result nominal_env = Offboard.Success /\
  offboard_stop_result nominal_env = Offboard.Success /\
  sends (trace_of (offb_ctrl_body Ortho nominal_env (init_world nominal_env)))
    = neutral :: neutral :: map command (script Ortho) ++ [neutral].
Proof.
  split; [reflexivity|]. split; [reflexivity|].
  exact (proj1 (flight_scripts nominal_env (init_world nominal_env) eq_refl eq_refl)
           Ortho).
Defined.

(** * Further properties of the programs *)

(** ** A wrong argument count *)

(** X1. With an argument count other than 2, [main] writes the usage
    text to the error stream and exits with code 1: the line
    [Usage : <argv[0]> <connection_url>], then the five lines on the
    format of the connection URL, and nothing else.  It makes no call to
    the library and lets no time pass. *)
Theorem wrong_argument_count_prints_usage :
  forall (v : Variant) (fuel : nat) (e : Env),
    List.length (argv e) <> 2%nat ->
    outcome_of (run_main v fuel e) = Done 1%Z /\
    world_of (run_main v fuel e) = init_world e /\
    trace_of (run_main v fuel e)
      = [Cerr "Usage : "; Cerr (nth 0 (argv e) EmptyString);
         Cerr " <connection_url>\n";
         Cerr "Connection URL format should be :\n";
         Cerr " For TCP : tcp://[server_host][:server_port]\n";
         Cerr " For UDP : udp://[bind_host][:bind_port]\n";
         Cerr " For Serial : serial:///path/to/serial/dev[:baudrate]\n";
         Cerr "For example, to connect to the simulator use URL: udp://:14540\n"] /\
    forallb is_cerr (trace_of (run_main v fuel e)) = true.
Proof.
  intros v fuel e Hargs. apply Nat.eqb_neq in Hargs.
  unfold run_main, main, bind. cbn -[Nat.eqb].
  rewrite Hargs. cbn. repeat split; reflexivity.
Qed.

Lemma wrong_argument_count_prints_usage_witness :
  List.length (argv (with_argv ["offboard"%string] nominal_env)) <> 2%nat /\
  outcome_of (run_main Omni 0 (with_argv ["offboard"%string] nominal_env))
    = Done 1%Z.
Proof.
  assert (H : List.length (argv (with_argv ["offboard"%string] nominal_env))
              <> 2%nat) by discriminate.
  split; [exact H|].
  exact (proj1 (wrong_argument_count_prints_usage Omni 0
                  (with_argv ["offboard"%string] nominal_env) H)).
Defined.

(** ** The result of [offb_ctrl_body] *)

(** X2. [offb_ctrl_body] always returns, and returns [true] exactly when
    both the start and the stop of the offboard mode succeeded.  When the
    start succeeded and the stop failed, the whole script has been flown
    before: the channel has seen the same commands and dwells as in a
    successful run, the stop was called once, the error is reported last,
    and the result is [false]. *)
Theorem offb_ctrl_body_result :
  forall (v : Variant) (e : Env) (w : World),
    (exists b : bool, outcome_of (offb_ctrl_body v e w) = Done b) /\
    (outcome_of (offb_ctrl_body v e w) = Done true <->
       offboard_start_result e = Offboard.Success /\
       offboard_stop_result e = Offboard.Success) /\
    (offboard_start_result e = Offboard.Success ->
     offboard_stop_result e <> Offboard.Success ->
       outcome_of (offb_ctrl_body v e w) = Done false /\
       channel (trace_of (offb_ctrl_body v e w)) = channel_script (script v) /\
       count is_stop (trace_of (offb_ctrl_body v e w)) = 1%nat /\
       (exists pre : list Event,
          trace_of (offb_ctrl_body v e w)
            = pre ++ [OffboardStop; Cerr "Offboard stop failed: ";
                      CerrOffboardResult (offboard_stop_result e); Cerr "\n"]) /\
       clock (world_of (offb_ctrl_body v e w))
         = (clock w + seconds settle + total_dwell (script v) + seconds settle)%N).
Proof.
  intros v e w. split; [|split].
  - destruct v; cbn; destruct (offboard_start_result e); cbn;
      destruct (offboard_stop_result e); cbn; eexists; reflexivity.
  - destruct v; cbn; destruct (offboard_start_result e); cbn;
      destruct (offboard_stop_result e); cbn;
      (split; [intros H; try discriminate H; split; reflexivity
              | intros [H1 H2]; try discriminate H1; try discriminate H2;
                reflexivity]).
  - intros Hstart Hstop.
    destruct (offb_ctrl_body_refines v e w) as [Htr [Hw _]].
    rewrite Htr, Hw, run_sequence_run, Hstart.
    cbn -[seconds channel_script elapse total_dwell].
    split; [|split; [reflexivity|split; [|split]]].
    + destruct v; cbn; rewrite Hstart; cbn;
        destruct (offboard_stop_result e); [congruence | reflexivity |
        congruence | reflexivity].
    + destruct v; cbn; rewrite Hstart; cbn;
        destruct (offboard_stop_result e); try congruence; reflexivity.
    + exists (firstn (List.length (trace_of (offb_ctrl_body v e w)) - 4)
                     (trace_of (offb_ctrl_body v e w))).
      destruct v; cbn; rewrite Hstart; cbn;
        destruct (offboard_stop_result e); try congruence; reflexivity.
    + rewrite clock_elapse. cbn -[seconds total_dwell]. lia.
Qed.

Lemma offb_ctrl_body_result_witness :
  offboard_start_result (with_offboard_stop (Offboard.Other 3) nominal_env)
    = Offboard.Success /\
  offboard_stop_result (with_offboard_stop (Offboard.Other 3) nominal_env)
    <> Offboard.Success /\
  outcome_of (offb_ctrl_body Omni (with_offboard_stop (Offboard.Other 3) nominal_env)
                             (init_world nominal_env)) = Done false /\
  count is_stop
    (trace_of (offb_ctrl_body Omni (with_offboard_stop (Offboard.Other 3) nominal_env)
                              (init_world nominal_env))) = 1%nat.
Proof.
  assert (Hstop : offboard_stop_result
                    (with_offboard_stop (Offboard.Other 3) nominal_env)
                  <> Offboard.Success) by discriminate.
  destruct (proj2 (proj2 (offb_ctrl_body_result Omni
              (with_offboard_stop (Offboard.Other 3) nominal_env)
              (init_world nominal_env))) eq_refl Hstop) as [Hout [_ [Hcount _]]].
  split; [reflexivity|]. split; [exact Hstop|]. split; [exact Hout | exact Hcount].
Defined.

(** ** Landing *)

Lemma in_count_iff (x : Event) (p : Event -> bool) (tr : list Event) :
  (forall ev, p ev = true <-> ev = x) ->
  In x tr <-> (0 < count p tr)%nat.
Proof.
  intros Hp. unfold count. induction tr as [|ev tr IH]; simpl.
  - split; [tauto | lia].
  - destruct (p ev) eqn:Hev; simpl.
    + apply Hp in Hev. split; [lia | auto].
    + rewrite <- IH. split; [|tauto].
      intros [H|H]; [|exact H].
      apply Hp in H. congruence.
Qed.

Lemma in_land_count (tr : list Event) :
  In Land tr <-> (0 < count is_land tr)%nat.
Proof.
  apply in_count_iff. intros ev. destruct ev; simpl; split; congruence.
Qed.

Lemma in_offboard_start_count (tr : list Event) :
  In OffboardStart tr <-> (0 < count is_start tr)%nat.
Proof.
  apply in_count_iff. intros ev. destruct ev; simpl; split; congruence.
Qed.

Lemma main_events_land (v : Variant) (fuel : nat) (e : Env) :
  (In Land (main_events v fuel e) /\
   offboard_start_result e = Offboard.Success /\
   offboard_stop_result e = Offboard.Success /\
   main_events v fuel e
     = before_land_events v fuel e ++ Land :: after_land_events fuel e)
  \/ ~ In Land (main_events v fuel e).
Proof.
  unfold before_land_events, after_land_events, takeoff_block.
  walk_main v fuel e
    ltac:(first
      [ right; rewrite in_land_count; count_leaf; lia
      | left; split; [rewrite in_land_count; count_leaf; lia|];
        split; [reflexivity|]; split; [reflexivity|];
        rewrite <- ?app_assoc; reflexivity ]).
Qed.

Lemma verdict_after_land (v : Variant) (fuel : nat) (e : Env) :
  In Land (main_events v fuel e) ->
  land_result e = Action.Success ->
  verdict fuel e = match landed_after fuel e with
                   | None => Polling ConfirmingGrounded
                   | Some _ => Finished
                   end.
Proof.
  walk_main v fuel e
    ltac:(intros Hin Hok;
          first [ exfalso; apply in_land_count in Hin; revert Hin;
                  count_leaf; lia
                | discriminate Hok
                | reflexivity ]).
Qed.

Lemma before_land_has_no_poll (v : Variant) (fuel : nat) (e : Env) :
  count is_in_air_poll (before_land_events v fuel e) = 0%nat.
Proof.
  unfold before_land_events, takeoff_block. unfold_main.
  destruct (first_autopilot (new_systems e) (seconds 3)) as [[? ?]|];
    destruct (healthy_after fuel e);
    destruct (airborne_within (landed_states e) (seconds 10));
    destruct (airborne_within (landed_states e) (seconds 10 + seconds 3));
    destruct v; simp_main;
    destruct (offboard_start_result e); simp_main;
    destruct (offboard_stop_result e); simp_main;
    count_leaf; reflexivity.
Qed.

(** X3. [main] calls [land] only after [offb_ctrl_body] has returned
    [true]: when [land] is in the trace, the start and the stop of the
    offboard mode both succeeded and [land] comes right after the stop.
    When the offboard control was entered and its start or its stop
    failed, [main] exits with code 1 without calling [land], although the
    vehicle has taken off. *)
Theorem land_needs_offboard_success :
  forall (v : Variant) (fuel : nat) (e : Env),
    (In Land (trace_of (run_main v fuel e)) ->
       offboard_start_result e = Offboard.Success /\
       offboard_stop_result e = Offboard.Success /\
       exists pre post : list Event,
         trace_of (run_main v fuel e)
           = pre ++ [OffboardStop; Cout "Offboard stopped\n"; Land] ++ post) /\
    (In OffboardStart (trace_of (run_main v fuel e)) ->
     offboard_start_result e <> Offboard.Success \/
     offboard_stop_result e <> Offboard.Success ->
       outcome_of (run_main v fuel e) = Done 1%Z /\
       ~ In Land (trace_of (run_main v fuel e)) /\
       In Takeoff (trace_of (run_main v fuel e))).
Proof.
  intros v fuel e.
  destruct (run_main_run v fuel e) as [Hout [Htr _]]. rewrite Hout, Htr.
  split.
  - intros Hin.
    destruct (main_events_land v fuel e) as [[_ [Hstart [Hstop Heq]]]|Hno];
      [|contradiction].
    split; [exact Hstart|]. split; [exact Hstop|].
    assert (Hoff : exists pre,
               offb_events v e = pre ++ [OffboardStop; Cout "Offboard stopped\n"]).
    { exists (firstn (List.length (offb_events v e) - 2) (offb_events v e)).
      unfold offb_events. destruct v; cbn; rewrite Hstart; cbn; rewrite Hstop;
        reflexivity. }
    destruct Hoff as [pre Hoff].
    exists (before_arm_events fuel e ++ takeoff_block v
            ++ wait_in_air_events (landed_states e) ++ pre),
           (after_land_events fuel e).
    rewrite Heq. unfold before_land_events. rewrite Hoff.
    rewrite <- !app_assoc. reflexivity.
  - clear Hout Htr.
    walk_main v fuel e
      ltac:(intros Hin Hfail;
            first [ exfalso; apply in_offboard_start_count in Hin; revert Hin;
                    count_leaf; lia
                  | exfalso; destruct Hfail; congruence
                  | split; [reflexivity|];
                    split; [rewrite in_land_count; count_leaf; lia
                           | rewrite in_takeoff_count; count_leaf; lia] ]).
Qed.

Lemma land_needs_offboard_success_witness :
  In OffboardStart
    (trace_of (run_main Omni 6 (with_offboard_stop (Offboard.Other 3) nominal_env))) /\
  offboard_stop_result (with_offboard_stop (Offboard.Other 3) nominal_env)
    <> Offboard.Success /\
  ~ In Land
      (trace_of (run_main Omni 6 (with_offboard_stop (Offboard.Other 3) nominal_env))) /\
  In Land (trace_of (run_main Ortho 6 nominal_env)) /\
  offboard_stop_result nominal_env = Offboard.Success.
Proof.
  assert (Hin : In OffboardStart
                  (trace_of (run_main Omni 6
                               (with_offboard_stop (Offboard.Other 3) nominal_env)))).
  { apply in_offboard_start_count. vm_compute. lia. }
  assert (Hstop : offboard_stop_result
                    (with_offboard_stop (Offboard.Other 3) nominal_env)
                  <> Offboard.Success) by discriminate.
  assert (Hland : In Land (trace_of (run_main Ortho 6 nominal_env))).
  { apply in_land_count. vm_compute. lia. }
  split; [exact Hin|]. split; [exact Hstop|]. split.
  - exact (proj1 (proj2 (proj2 (land_needs_offboard_success Omni 6
             (with_offboard_stop (Offboard.Other 3) nominal_env))
             Hin (or_intror Hstop)))).
  - split; [exact Hland|].
    exact (proj1 (proj2 (proj1 (land_needs_offboard_success Ortho 6 nominal_env)
                           Hland))).
Defined.

(** X4. After a successful [land], [main] polls [telemetry.in_air()] and
    sleeps one second after each positive answer, with no bound on the
    number of rounds.  While the vehicle reports itself in the air the
    routine is still polling: it has made as many polls as it was given
    rounds and has not exited.  When the answer is first negative at poll
    [j], [main] has slept [j] times, prints "Landed!", sleeps 3 s, prints
    "Finished..." and exits with code 0. *)
Theorem landing_polling_is_unbounded :
  forall (v : Variant) (fuel : nat) (e : Env),
    In Land (trace_of (run_main v fuel e)) ->
    land_result e = Action.Success ->
    ((forall n : nat, in_air_at e n = true) ->
       outcome_of (run_main v fuel e) = Running /\
       trace_of (run_main v fuel e)
         = before_land_events v fuel e ++ Land :: rounds fuel landing_round /\
       count is_in_air_poll (trace_of (run_main v fuel e)) = fuel) /\
    (forall j : nat,
       (forall i : nat, (i < j)%nat -> in_air_at e i = true) ->
       in_air_at e j = false ->
       (j < fuel)%nat ->
       outcome_of (run_main v fuel e) = Done 0%Z /\
       trace_of (run_main v fuel e)
         = before_land_events v fuel e
           ++ Land :: rounds j landing_round
           ++ [InAirPoll; Cout "Landed!\n"; SleepFor (seconds 3);
               Cout "Finished...\n"] /\
       count is_in_air_poll (trace_of (run_main v fuel e)) = S j).
Proof.
  intros v fuel e Hin Hland.
  destruct (run_main_run v fuel e) as [Hout [Htr _]]. rewrite Hout, Htr in *.
  pose proof (verdict_after_land v fuel e Hin Hland) as Hv.
  destruct (main_events_land v fuel e) as [[_ [_ [_ Heq]]]|Hno];
    [|contradiction].
  rewrite Hv, Heq. unfold after_land_events, landing_events, landed_after.
  rewrite Hland. cbn [Action.eqb negb].
  split.
  - intros Hnever.
    rewrite first_true_none by (intros n; now rewrite Hnever).
    rewrite app_nil_r. repeat split.
    rewrite count_app, count_cons, count_rounds, before_land_has_no_poll.
    unfold count. simpl. lia.
  - intros j Hbefore Hj Hfuel.
    rewrite (first_true_some (fun n => negb (in_air_at e n)) j 0 fuel);
      [| intros i Hi; simpl; now rewrite Hbefore | simpl; now rewrite Hj | exact Hfuel].
    repeat split.
    + now rewrite <- app_assoc.
    + rewrite count_app, count_cons, !count_app, count_rounds,
        before_land_has_no_poll.
      unfold count. simpl. lia.
Qed.

Lemma landing_polling_is_unbounded_witness :
  In Land (trace_of (run_main Omni 50 (with_in_air (fun _ => true) nominal_env))) /\
  outcome_of (run_main Omni 50 (with_in_air (fun _ => true) nominal_env)) = Running /\
  count is_in_air_poll
    (trace_of (run_main Omni 50 (with_in_air (fun _ => true) nominal_env))) = 50%nat /\
  outcome_of (run_main Omni 6 nominal_env) = Done 0%Z.
Proof.
  assert (Hin : In Land (trace_of (run_main Omni 50
                                     (with_in_air (fun _ => true) nominal_env)))).
  { apply in_land_count. vm_compute. lia. }
  destruct (proj1 (landing_polling_is_unbounded Omni 50
                     (with_in_air (fun _ => true) nominal_env) Hin eq_refl)
              (fun _ => eq_refl)) as [Hout [_ Hpolls]].
  split; [exact Hin|]. split; [exact Hout|]. split; [exact Hpolls|].
  assert (Hin' : In Land (trace_of (run_main Omni 6 nominal_env))).
  { apply in_land_count. vm_compute. lia. }
  refine (proj1 (proj2 (landing_polling_is_unbounded Omni 6 nominal_env Hin' eq_refl)
                   5%nat _ eq_refl _)); [|lia].
  intros i Hi. do 5 (destruct i as [|i]; [reflexivity|]). lia.
Defined.

(** ** The order of the stages *)

Lemma stages_in_order_bound (tr : list Event) :
  forall from : nat,
    stages_in_order from tr = true ->
    forall y : Event, In y tr -> event_rank y <> 0%nat ->
    (from <= event_rank y)%nat.
Proof.
  induction tr as [|ev rest IH]; intros from Hord y Hin Hy; [destruct Hin|].
  simpl in Hord. destruct (event_rank ev) as [|r] eqn:Hev.
  - destruct Hin as [<-|Hin]; [congruence | now apply IH].
  - apply andb_prop in Hord. destruct Hord as [Hle Hrest].
    apply Nat.leb_le in Hle.
    destruct Hin as [<-|Hin]; [lia|].
    specialize (IH _ Hrest y Hin Hy). lia.
Qed.

Lemma stages_in_order_suffix (pre : list Event) :
  forall (from : nat) (x : Event) (rest : list Event),
    stages_in_order from (pre ++ x :: rest) = true ->
    event_rank x <> 0%nat ->
    stages_in_order (event_rank x) rest = true.
Proof.
  induction pre as [|ev pre IH]; intros from x rest Hord Hx; simpl in Hord.
  - destruct (event_rank x) as [|r]; [congruence|].
    apply andb_prop in Hord. tauto.
  - destruct (event_rank ev) as [|r].
    + now apply IH with (from := from).
    + apply andb_prop in Hord. destruct Hord as [_ Hrest].
      now apply IH with (from := S r).
Qed.

Lemma stages_in_order_weaken (tr : list Event) :
  forall from from' : nat,
    (from' <= from)%nat ->
    stages_in_order from tr = true -> stages_in_order from' tr = true.
Proof.
  induction tr as [|ev rest IH]; intros from from' Hle Hord; [reflexivity|].
  simpl in *. destruct (event_rank ev) as [|r].
  - now apply IH with (from := from).
  - apply andb_prop in Hord. destruct Hord as [H1 H2].
    apply Nat.leb_le in H1. rewrite H2, andb_true_r.
    apply Nat.leb_le. lia.
Qed.

Lemma stages_health_rounds (n from : nat) (rest : list Event) :
  (from <=? stage_rank AwaitingHealth)%nat = true ->
  stages_in_order (stage_rank AwaitingHealth) rest = true ->
  stages_in_order from (rounds n health_round ++ rest) = true.
Proof.
  cbn [stage_rank]. intros Hle Hrest. revert from Hle.
  induction n as [|n IH]; intros from Hle.
  - apply Nat.leb_le in Hle.
    now apply stages_in_order_weaken with (from := 3%nat).
  - simpl rounds. rewrite <- ?app_assoc.
    cbn -[rounds Nat.leb]. rewrite Hle. now apply IH.
Qed.

Lemma stages_landing_rounds (n from : nat) (rest : list Event) :
  (from <=? stage_rank ConfirmingGrounded)%nat = true ->
  stages_in_order (stage_rank ConfirmingGrounded) rest = true ->
  stages_in_order from (rounds n landing_round ++ rest) = true.
Proof.
  cbn [stage_rank]. intros Hle Hrest. revert from Hle.
  induction n as [|n IH]; intros from Hle.
  - apply Nat.leb_le in Hle.
    now apply stages_in_order_weaken with (from := 9%nat).
  - simpl rounds. rewrite <- ?app_assoc.
    cbn -[rounds Nat.leb]. rewrite Hle. now apply IH.
Qed.

Ltac stages_leaf :=
  repeat first
    [ reflexivity
    | progress cbn [stages_in_order event_rank stage_rank Nat.leb andb app]
    | rewrite <- app_assoc
    | apply stages_health_rounds; [reflexivity|]
    | apply stages_landing_rounds; [reflexivity|] ].

Lemma main_events_in_order (v : Variant) (fuel : nat) (e : Env) :
  stages_in_order 0 (main_events v fuel e) = true.
Proof.
  walk_main v fuel e ltac:(stages_leaf).
Qed.

(** X5. The stages of [main] are run in one fixed order, with no way
    back: connection, discovery, health, arming, takeoff, confirmation of
    the takeoff, offboard control, landing, confirmation of the landing.
    Whenever a call to the library comes before another one in a run, its
    stage is the same or an earlier one. *)
Theorem stages_never_go_back :
  forall (v : Variant) (fuel : nat) (e : Env)
         (pre mid post : list Event) (x y : Event),
    trace_of (run_main v fuel e) = pre ++ x :: mid ++ y :: post ->
    event_rank x <> 0%nat -> event_rank y <> 0%nat ->
    (event_rank x <= event_rank y)%nat.
Proof.
  intros v fuel e pre mid post x y Heq Hx Hy.
  destruct (run_main_run v fuel e) as [_ [Htr _]]. rewrite Htr in Heq.
  pose proof (main_events_in_order v fuel e) as Hord. rewrite Heq in Hord.
  apply stages_in_order_suffix in Hord; [|exact Hx].
  apply (stages_in_order_bound _ _ Hord y); [|exact Hy].
  apply in_or_app. right. left. reflexivity.
Qed.

Lemma stages_never_go_back_witness :
  trace_of (run_main Omni 0 lonely_env)
    = [] ++ AddAnyConnection "udp://:14540"
         :: [Cout "Waiting to discover system...\n"]
         ++ SubscribeOnNewSystem Lambda
         :: [FutWaitFor 3000; Cerr "No autopilot found.\n"] /\
  (event_rank (AddAnyConnection "udp://:14540")
   <= event_rank (SubscribeOnNewSystem Lambda))%nat.
Proof.
  assert (H : trace_of (run_main Omni 0 lonely_env)
              = [] ++ AddAnyConnection "udp://:14540"
                   :: [Cout "Waiting to discover system...\n"]
                   ++ SubscribeOnNewSystem Lambda
                   :: [FutWaitFor 3000; Cerr "No autopilot found.\n"])
    by reflexivity.
  split; [exact H|].
  apply (stages_never_go_back Omni 0 lonely_env _ _ _ _ _ H); discriminate.
Defined.

(** ** What [get_system] returns *)

Lemma first_autopilot_some (q : list (N * System)) :
  forall (d t : N) (s : System),
    first_autopilot q d = Some (t, s) ->
    has_autopilot s = true /\ (t < d)%N /\
    exists (pre : list (N * System)) (gap : N) (post : list (N * System)),
      q = pre ++ (gap, s) :: post /\
      t = (total_gap pre + gap)%N /\
      forallb (fun p => negb (has_autopilot (snd p))) pre = true.
Proof.
  induction q as [|[gap s0] q IH]; intros d t s Hf; simpl in Hf; [discriminate|].
  destruct (N.ltb_spec gap d) as [Hlt|Hge]; [|discriminate].
  destruct (has_autopilot s0) eqn:Hauto.
  - injection Hf as <- <-. split; [exact Hauto|]. split; [exact Hlt|].
    exists [], gap, q. repeat split; simpl; try lia.
  - destruct (first_autopilot q (d - gap)) as [[t' s']|] eqn:Hrec; [|discriminate].
    injection Hf as <- <-.
    destruct (IH _ _ _ Hrec) as [Hs [Ht [pre [g [post [Hq [Htime Hpre]]]]]]].
    split; [exact Hs|]. split; [lia|].
    exists ((gap, s0) :: pre), g, post. repeat split.
    + now rewrite Hq.
    + simpl. lia.
    + simpl. now rewrite Hauto, Hpre.
Qed.

(** X6. [get_system] returns the first system with an autopilot of the
    discovery notifications: when that system is discovered less than 3 s
    after the subscription, [get_system] returns it, whatever systems
    without an autopilot were discovered before it and whatever is
    discovered after it; a system it returns has an autopilot and is
    the first such system discovered.  When no discovered system has an
    autopilot, the wait of 3 s times out, the program reports that no
    autopilot was found and [get_system] returns the empty pointer, with
    the lambda still subscribed.  [get_system] returns in every case. *)
Theorem get_system_returns_first_autopilot :
  forall (e : Env) (w : World),
    (forall (pre : list (N * System)) (gap : N) (s : System)
            (post : list (N * System)),
       new_system_pending w = pre ++ (gap, s) :: post ->
       forallb (fun p => negb (has_autopilot (snd p))) pre = true ->
       has_autopilot s = true ->
       (total_gap pre + gap < seconds 3)%N ->
       outcome_of (get_system e w) = Done (Some s)) /\
    (forall s : System,
       outcome_of (get_system e w) = Done (Some s) ->
       has_autopilot s = true /\
       exists (pre : list (N * System)) (gap : N) (post : list (N * System)),
         new_system_pending w = pre ++ (gap, s) :: post /\
         forallb (fun p => negb (has_autopilot (snd p))) pre = true) /\
    (forallb (fun p => negb (has_autopilot (snd p))) (new_system_pending w) = true ->
       outcome_of (get_system e w) = Done None /\
       trace_of (get_system e w)
         = [Cout "Waiting to discover system...\n"; SubscribeOnNewSystem Lambda;
            FutWaitFor (seconds 3); Cerr "No autopilot found.\n"] /\
       on_new_system (world_of (get_system e w)) = Lambda /\
       prom (world_of (get_system e w)) = None) /\
    (exists r : option System, outcome_of (get_system e w) = Done r).
Proof.
  intros e w.
  destruct (get_system_run e w) as [w1 [Hrun [Hh [_ [_ [_ [_ Hp]]]]]]].
  rewrite Hrun. unfold outcome_of, world_of, trace_of. cbn [fst snd].
  split; [|split; [|split]].
  - intros pre gap s post Hq Hpre Hs Hlt.
    rewrite Hq, (first_autopilot_complete pre gap s post _ Hpre Hs Hlt).
    reflexivity.
  - intros s Heq.
    destruct (first_autopilot (new_system_pending w) (seconds 3)) as [[t s0]|] eqn:Hf;
      cbn [option_map snd] in Heq; [|discriminate].
    injection Heq as <-.
    destruct (first_autopilot_some _ _ _ _ Hf)
      as [Hs [_ [pre [gap [post [Hq [_ Hpre]]]]]]].
    split; [exact Hs|]. now exists pre, gap, post.
  - intros Hall.
    assert (Hf : first_autopilot (new_system_pending w) (seconds 3) = None).
    { destruct (first_autopilot (new_system_pending w) (seconds 3)) as [[t s0]|] eqn:Hf;
        [|reflexivity].
      destruct (first_autopilot_some _ _ _ _ Hf)
        as [Hs [_ [pre [gap [post [Hq _]]]]]].
      rewrite Hq, forallb_app in Hall. apply andb_prop in Hall.
      destruct Hall as [_ Hall]. simpl in Hall. rewrite Hs in Hall.
      discriminate Hall. }
    unfold get_system_events. rewrite Hf in *.
    repeat split; assumption || reflexivity.
  - now eexists.
Qed.

Lemma get_system_returns_first_autopilot_witness :
  new_system_pending (init_world nominal_env)
    = [] ++ (500%N, mkSystem 1 true) :: [] /\
  outcome_of (get_system nominal_env (init_world nominal_env))
    = Done (Some (mkSystem 1 true)) /\
  forallb (fun p => negb (has_autopilot (snd p)))
          (new_system_pending (init_world lonely_env)) = true /\
  outcome_of (get_system lonely_env (init_world lonely_env)) = Done None.
Proof.
  assert (Hq : new_system_pending (init_world nominal_env)
               = [] ++ (500%N, mkSystem 1 true) :: []) by reflexivity.
  assert (Hall : forallb (fun p => negb (has_autopilot (snd p)))
                         (new_system_pending (init_world lonely_env)) = true)
    by reflexivity.
  split; [exact Hq|]. split.
  - exact (proj1 (get_system_returns_first_autopilot nominal_env
                    (init_world nominal_env)) _ _ _ _ Hq eq_refl eq_refl eq_refl).
  - split; [exact Hall|].
    exact (proj1 (proj1 (proj2 (proj2 (get_system_returns_first_autopilot lonely_env
                                         (init_world lonely_env)))) Hall)).
Defined.

(** ** The sleeps of a complete flight *)

Lemma sleeps_app (a b : list Event) : sleeps (a ++ b) = sleeps a ++ sleeps b.
Proof.
  induction a as [|ev a IH]; [reflexivity|].
  destruct ev; simpl; now rewrite IH.
Qed.

Lemma sleeps_health_rounds (n : nat) :
  sleeps (rounds n health_round) = repeat (seconds 1) n.
Proof.
  induction n as [|n IH]; [reflexivity|].
  cbn -[seconds]. now rewrite IH.
Qed.

Lemma sleeps_landing_rounds (n : nat) :
  sleeps (rounds n landing_round) = repeat (seconds 1) n.
Proof.
  induction n as [|n IH]; [reflexivity|].
  cbn -[seconds]. now rewrite IH.
Qed.

Lemma main_events_sleeps (v : Variant) (fuel : nat) (e : Env) :
  verdict fuel e = Finished ->
  sleeps (main_events v fuel e)
    = repeat (seconds 1) (match healthy_after fuel e with Some k => k | None => 0 end)
      ++ [seconds settle] ++ map (fun s => seconds (dwell s)) (script v)
      ++ [seconds settle]
      ++ repeat (seconds 1) (match landed_after fuel e with Some j => j | None => 0 end)
      ++ [seconds 3].
Proof.
  walk_main v fuel e ltac:(intros H; discriminate H).
  all: intros _; cbn -[seconds rounds repeat];
    rewrite ?sleeps_app, ?sleeps_health_rounds, ?sleeps_landing_rounds;
    cbn -[seconds rounds repeat];
    rewrite ?sleeps_app, ?sleeps_health_rounds, ?sleeps_landing_rounds;
    cbn -[seconds rounds repeat];
    rewrite ?sleeps_app, ?sleeps_health_rounds, ?sleeps_landing_rounds;
    cbn -[seconds rounds repeat]; rewrite ?app_nil_r; reflexivity.
Qed.

(** X8. A run of [main] that ends with exit code 0 has called
    [sleep_for] with these durations, in this order, and with no other:
    1 s after each health poll that was negative, 2 s after the hover
    that follows the start of the offboard mode, the dwell of each step
    of the script after its command, 2 s after the final hover, 1 s after
    each poll that found the vehicle still in the air, and 3 s before the
    last message. *)
Theorem sleeps_of_a_complete_flight :
  forall (v : Variant) (fuel : nat) (e : Env),
    outcome_of (run_main v fuel e) = Done 0%Z ->
    exists (k j : nat),
      healthy_after fuel e = Some k /\
      landed_after fuel e = Some j /\
      sleeps (trace_of (run_main v fuel e))
        = repeat (seconds 1) k
          ++ [seconds 2] ++ map (fun s => seconds (dwell s)) (script v)
          ++ [seconds 2]
          ++ repeat (seconds 1) j ++ [seconds 3].
Proof.
  intros v fuel e Hout.
  destruct (run_main_run v fuel e) as [Hexit [Htr _]]. rewrite Hexit in Hout.
  assert (Hv : verdict fuel e = Finished).
  { destruct (verdict fuel e); simpl in Hout; congruence. }
  rewrite Htr, (main_events_sleeps v fuel e Hv).
  apply verdict_finished in Hv.
  destruct Hv as (_ & _ & _ & Hhealth & _ & _ & _ & _ & _ & _ & Hlanded).
  destruct (healthy_after fuel e) as [k|]; [|now contradiction Hhealth].
  destruct (landed_after fuel e) as [j|]; [|now contradiction Hlanded].
  exists k, j. repeat split.
Qed.

Lemma sleeps_of_a_complete_flight_witness :
  outcome_of (run_main Omni 6 nominal_env) = Done 0%Z /\
  exists (k j : nat),
    healthy_after 6 nominal_env = Some k /\
    landed_after 6 nominal_env = Some j /\
    sleeps (trace_of (run_main Omni 6 nominal_env))
      = repeat (seconds 1) k
        ++ [seconds 2] ++ map (fun s => seconds (dwell s)) (script Omni)
        ++ [seconds 2]
        ++ repeat (seconds 1) j ++ [seconds 3].
Proof.
  assert (H : outcome_of (run_main Omni 6 nominal_env) = Done 0%Z) by reflexivity.
  split; [exact H|].
  exact (sleeps_of_a_complete_flight Omni 6 nominal_env H).
Defined.

(** ** The remote calls of a run *)

Ltac calls_leaf :=
  do 3 (simpl; rewrite ?filter_app, ?filter_rounds_nil by reflexivity);
  simpl.

Lemma main_events_calls (v : Variant) (fuel : nat) (e : Env) :
  List.length (argv e) = 2%nat ->
  exists n : nat,
    filter is_fallible_call (main_events v fuel e) = firstn n (flight_calls e) /\
    (verdict fuel e = Finished -> n = 6%nat).
Proof.
  intros H2. unfold flight_calls.
  walk_main v fuel e
    ltac:(try congruence; calls_leaf;
          first [ exists 1%nat; split; [reflexivity | discriminate]
                | exists 2%nat; split; [reflexivity | discriminate]
                | exists 3%nat; split; [reflexivity | discriminate]
                | exists 4%nat; split; [reflexivity | discriminate]
                | exists 5%nat; split; [reflexivity | discriminate]
                | exists 6%nat; split; reflexivity ]).
Qed.

(** X9. The fallible remote calls of a run are always an initial part of
    the list: connection (with [argv[1]] as the address), arm, takeoff,
    offboard start, offboard stop, land; each is made at most once and
    none out of turn.  A run that ends with exit code 0 has made all six,
    in this order. *)
Theorem remote_calls_follow_the_flight_plan :
  forall (v : Variant) (fuel : nat) (e : Env),
    List.length (argv e) = 2%nat ->
    exists n : nat,
      filter is_fallible_call (trace_of (run_main v fuel e))
        = firstn n (flight_calls e) /\
      (outcome_of (run_main v fuel e) = Done 0%Z -> n = 6%nat).
Proof.
  intros v fuel e H2.
  destruct (run_main_run v fuel e) as [Hout [Htr _]]. rewrite Hout, Htr.
  destruct (main_events_calls v fuel e H2) as [n [Hn Hfull]].
  exists n. split; [exact Hn|].
  intros H. apply Hfull. destruct (verdict fuel e); simpl in H; congruence.
Qed.

Lemma remote_calls_follow_the_flight_plan_witness :
  List.length (argv nominal_env) = 2%nat /\
  exists n : nat,
    filter is_fallible_call (trace_of (run_main Ortho 6 nominal_env))
      = firstn n (flight_calls nominal_env) /\
    (outcome_of (run_main Ortho 6 nominal_env) = Done 0%Z -> n = 6%nat).
Proof.
  split; [reflexivity|].
  exact (remote_calls_follow_the_flight_plan Ortho 6 nominal_env eq_refl).
Defined.

(** ** Notifications that do not match *)

(** X10. The lambdas react to a match only, and to nothing once the slot
    is empty.  Landed-state notifications other than [InAir] leave the
    world as it is and produce no output, and so does any landed-state
    notification delivered after the unsubscription.  Discovered systems
    without an autopilot, and any system discovered after the
    unsubscription, are added to the list of systems and nothing else
    happens: no output, no change of the slot or of the promise. *)
Theorem unmatched_notifications_are_ignored :
  forall (e : Env) (w : World),
    (forall l : list Telemetry.LandedState,
       existsb is_in_air l = false \/ landed_state_handler w = Nullptr ->
       notify_all_landed_states l e w = (Done tt, w, [])) /\
    (forall l : list System,
       existsb has_autopilot l = false \/ on_new_system w = Nullptr ->
       notify_all_new_systems l e w
         = (Done tt, fold_left (fun w' s => add_system s w') l w, [])).
Proof.
  intros e w. split.
  - intros l. revert w. induction l as [|state l IH]; intros w H; [reflexivity|].
    simpl notify_all_landed_states. unfold bind.
    rewrite notify_landed_state_run.
    assert (Hstep : match landed_state_handler w with
                    | Nullptr => (Done tt, w, [])
                    | Lambda =>
                        if Telemetry.eqb state Telemetry.InAir
                        then
                          if in_air_promise w
                          then (Done tt, set_landed_state_handler Nullptr w,
                                in_air_events ++ [FutureError])
                          else (Done tt,
                                set_in_air_promise true
                                  (set_landed_state_handler Nullptr w),
                                in_air_events)
                        else (Done tt, w, [])
                    end = (Done tt, w, @nil Event)).
    { destruct (landed_state_handler w) eqn:Hh; [reflexivity|].
      destruct H as [H|H]; [|discriminate H].
      simpl in H. apply orb_false_elim in H. unfold is_in_air in H.
      now rewrite (proj1 H). }
    rewrite Hstep. rewrite IH; [reflexivity|].
    destruct H as [H|H]; [left | now right].
    simpl in H. apply orb_false_elim in H. tauto.
  - intros l. revert w. induction l as [|s l IH]; intros w H; [reflexivity|].
    simpl notify_all_new_systems. unfold bind.
    rewrite notify_new_system_run.
    assert (Hstep : match on_new_system w with
                    | Nullptr => (Done tt, add_system s w, [])
                    | Lambda =>
                        if has_autopilot s
                        then
                          match prom w with
                          | Some _ =>
                              (Done tt, set_on_new_system Nullptr (add_system s w),
                               discovered_events s ++ [FutureError])
                          | None =>
                              (Done tt,
                               set_prom (Some s)
                                 (set_on_new_system Nullptr (add_system s w)),
                               discovered_events s)
                          end
                        else (Done tt, add_system s w, [])
                    end = (Done tt, add_system s w, @nil Event)).
    { destruct (on_new_system w) eqn:Hh; [reflexivity|].
      destruct H as [H|H]; [|discriminate H].
      simpl in H. apply orb_false_elim in H. now rewrite (proj1 H). }
    rewrite Hstep. rewrite IH; [reflexivity|].
    destruct H as [H|H]; [left | now right].
    simpl in H. apply orb_false_elim in H. tauto.
Qed.

Lemma unmatched_notifications_are_ignored_witness :
  existsb is_in_air [Telemetry.OnGround; Telemetry.TakingOff] = false /\
  notify_all_landed_states [Telemetry.OnGround; Telemetry.TakingOff] nominal_env
    (set_landed_state_handler Lambda (init_world nominal_env))
    = (Done tt, set_landed_state_handler Lambda (init_world nominal_env), []).
Proof.
  split; [reflexivity|].
  exact (proj1 (unmatched_notifications_are_ignored nominal_env
                  (set_landed_state_handler Lambda (init_world nominal_env)))
           [Telemetry.OnGround; Telemetry.TakingOff] (or_introl eq_refl)).
Defined.
